(** * Static asset handler of influxdb ([static/assets.go])

    A shallow embedding of [NewAssetHandler], [mwSetCacheControl] and
    [fileHandler2], together with the parts of the Go standard library they
    call ([strings], [path/filepath], [io/fs], [embed], [os.DirFS],
    [net/http]), and the properties of the handler that the specification
    states.

    Strings are byte strings ([string] is a list of 8-bit [ascii]), exactly as
    Go's [string].  The host is Unix-like: the path separator is ['/'] and
    there is no volume name. *)

From Stdlib Require Import ZArith Ascii String List Bool Lia DecimalString.
From Stdlib Require DecimalPos DecimalZ.
From stdpp Require Import base option list strings gmap fin_maps.

Local Open Scope Z_scope.

(* ===================================================================== *)
(** * Byte strings: package [strings] and friends                         *)
(* ===================================================================== *)

Module GoStrings.

(** [strings.TrimPrefix(s, prefix)] *)
Definition TrimPrefix (s prefix : string) : string :=
  if String.prefix prefix s
  then String.substring (String.length prefix)
                        (String.length s - String.length prefix)%nat s
  else s.

(** [strings.Split(s, "/")]: never empty, [Split("", "/") = [""]]. *)
Fixpoint splitSlash (s : string) : list string :=
  match s with
  | EmptyString => [EmptyString]
  | String c r =>
      if Ascii.eqb c "/" then EmptyString :: splitSlash r
      else match splitSlash r with
           | [] => [String c EmptyString]
           | e :: es => String c e :: es
           end
  end.

(** [strings.Join(elems, "/")] *)
Fixpoint joinSlash (elems : list string) : string :=
  match elems with
  | [] => ""
  | [e] => e
  | e :: es => e +:+ "/" +:+ joinSlash es
  end.

(** The byte [0x22], the double quote. *)
Definition dquote : string := String (ascii_of_nat 34) EmptyString.

(** The byte [0x0a], the line feed. *)
Definition newline : string := String (ascii_of_nat 10) EmptyString.

(** [fmt.Sprintf("%d", n)] for an [int64]. *)
Definition formatInt (n : Z) : string := NilZero.string_of_int (Z.to_int n).

Definition byte (c : ascii) : N := N_of_ascii c.

(** [unicode/utf8.ValidString]: the accept ranges of the decoder. *)
Definition inRange (lo hi : N) (c : ascii) : bool :=
  ((lo <=? byte c) && (byte c <=? hi))%N.

Definition cont : ascii -> bool := inRange 128 191.

Fixpoint validUTF8 (fuel : nat) (s : list ascii) : bool :=
  match fuel with
  | O => match s with [] => true | _ => false end
  | S fuel =>
      match s with
      | [] => true
      | c :: r =>
          if (byte c <? 128)%N then validUTF8 fuel r
          else if inRange 194 223 c then
            match r with
            | c1 :: r => cont c1 && validUTF8 fuel r
            | _ => false
            end
          else if inRange 224 239 c then
            match r with
            | c1 :: c2 :: r =>
                (if (byte c =? 224)%N then inRange 160 191 c1
                 else if (byte c =? 237)%N then inRange 128 159 c1
                 else cont c1)
                && cont c2 && validUTF8 fuel r
            | _ => false
            end
          else if inRange 240 244 c then
            match r with
            | c1 :: c2 :: c3 :: r =>
                (if (byte c =? 240)%N then inRange 144 191 c1
                 else if (byte c =? 244)%N then inRange 128 143 c1
                 else cont c1)
                && cont c2 && cont c3 && validUTF8 fuel r
            | _ => false
            end
          else false
      end
  end.

Definition ValidString (s : string) : bool :=
  let l := list_ascii_of_string s in validUTF8 (List.length l) l.

End GoStrings.

(* ===================================================================== *)
(** * Package [path/filepath] (Unix)                                      *)
(* ===================================================================== *)

Module filepath.
Import GoStrings.

(** One step of the loop of [Clean] over the elements between
    separators.  [out] is the output buffer as a stack of elements, last
    element first.  In a relative path the leading [..] elements stay in
    the buffer; [out.w > dotdot] in the Go code is "the top of the buffer
    is an ordinary element". *)
Definition cleanStep (rooted : bool) (out : list string) (elem : string)
  : list string :=
  if String.eqb elem "" then out                 (* empty path element *)
  else if String.eqb elem "." then out           (* . element *)
  else if String.eqb elem ".." then              (* .. element *)
    match out with
    | top :: rest =>
        if String.eqb top ".." then
          if rooted then out else ".." :: out
        else rest                                (* can backtrack *)
    | [] => if rooted then out else [".."]
    end
  else elem :: out.                              (* real path element *)

(** [filepath.Clean] *)
Definition Clean (path : string) : string :=
  if String.eqb path "" then "."
  else
    let rooted := String.prefix "/" path in
    let out := fold_left (cleanStep rooted) (splitSlash path) [] in
    let s := joinSlash (rev out) in
    if rooted then "/" +:+ s
    else if String.eqb s "" then "." else s.

(** [filepath.Join]: the empty leading elements are ignored, the rest is
    joined with the separator and cleaned; all empty gives [""]. *)
Fixpoint Join (elem : list string) : string :=
  match elem with
  | [] => ""
  | e :: es => if String.eqb e "" then Join es else Clean (joinSlash elem)
  end.

(** [filepath.Ext]: the suffix from the last dot of the last element. *)
Fixpoint extFrom (rev_path : list ascii) (acc : list ascii) : string :=
  match rev_path with
  | [] => ""
  | c :: r =>
      if Ascii.eqb c "/" then ""
      else if Ascii.eqb c "." then string_of_list_ascii (c :: acc)
      else extFrom r (c :: acc)
  end.

Definition Ext (path : string) : string :=
  extFrom (rev (list_ascii_of_string path)) [].

End filepath.

(* ===================================================================== *)
(** * Errors, package [io/fs], [embed.FS] and [os.DirFS]                  *)
(* ===================================================================== *)

Module fs.
Import GoStrings.

(** The error values that file systems produce: the sentinels of [io/fs]
    and the [syscall.Errno] values behind [os.Open]. *)
Inductive cause :=
| ErrInvalid | ErrPermission | ErrExist | ErrNotExist | ErrClosed
| ENOENT | EACCES | ENOTDIR | EIO
| errorString (msg : string).

(** An [error] is a bare cause or a [*fs.PathError] wrapping one. *)
Inductive error :=
| PathError (Op Path : string) (Err : cause)
| bare (c : cause).

Definition causeText (c : cause) : string :=
  match c with
  | ErrInvalid => "invalid argument"
  | ErrPermission => "permission denied"
  | ErrExist => "file already exists"
  | ErrNotExist => "file does not exist"
  | ErrClosed => "file already closed"
  | ENOENT => "no such file or directory"
  | EACCES => "permission denied"
  | ENOTDIR => "not a directory"
  | EIO => "input/output error"
  | errorString msg => msg
  end.

(** The method [err.Error()] of a non-nil error. *)
Definition Error (e : error) : string :=
  match e with
  | PathError op path c => op +:+ " " +:+ path +:+ ": " +:+ causeText c
  | bare c => causeText c
  end.

Definition underlyingError (e : error) : cause :=
  match e with PathError _ _ c => c | bare c => c end.

(** [os.IsNotExist] *)
Definition IsNotExist (e : error) : bool :=
  match underlyingError e with
  | ErrNotExist | ENOENT => true
  | _ => false
  end.

(** [time.Time] as an instant: the seconds since the Unix epoch and the
    nanoseconds within that second (0 to 999999999).  [time.Time{}] is
    1 January of year 1, 00:00:00 UTC. *)
Record Time := { unix : Z; nsec : Z }.
Definition zeroTime : Time := {| unix := -62135596800; nsec := 0 |}.

(** [Time.Equal]: the same instant. *)
Definition Equal (t u : Time) : bool := (unix t =? unix u) && (nsec t =? nsec u).

(** [Time.IsZero] *)
Definition IsZero (t : Time) : bool := Equal t zeroTime.

(** [fs.FileInfo] *)
Record FileInfo := { Name : string; Size : Z; ModTime : Time; IsDir : bool }.

(** An open [fs.File]: what [Stat] returns, and, when the dynamic type of
    the handle also implements [io.ReadSeeker], the bytes it reads. *)
Record File := {
  Stat : FileInfo + error;
  asReadSeeker : option string
}.

(** The interface [fs.FS]. *)
Record FS := { Open : string -> File + error }.

Definition validElem (elem : string) : bool :=
  negb (String.eqb elem "" || String.eqb elem "." || String.eqb elem "..").

(** [fs.ValidPath] *)
Definition ValidPath (name : string) : bool :=
  if negb (ValidString name) then false
  else if String.eqb name "." then true
  else forallb validElem (splitSlash name).

#[global] Instance cause_eq_dec : EqDecision cause.
Proof. solve_decision. Defined.
#[global] Instance error_eq_dec : EqDecision error.
Proof. solve_decision. Defined.
#[global] Instance Time_eq_dec : EqDecision Time.
Proof. solve_decision. Defined.
#[global] Instance FileInfo_eq_dec : EqDecision FileInfo.
Proof. solve_decision. Defined.
#[global] Instance File_eq_dec : EqDecision File.
Proof. solve_decision. Defined.

End fs.

(** ** [embed.FS] *)
Module embed.
Import GoStrings fs.

(** An embedded file: a regular file with its data, or a directory. *)
Inductive file :=
| regular (data : string)
| directory.

(** The file table of an [embed.FS], by slash-separated name. *)
Abbreviation files := (gmap string file).

(** The last element of a name: [file.Name()]. *)
Definition baseName (name : string) : string :=
  List.last (splitSlash name) "".

(** [FS.lookup]: invalid names find nothing, ["."] is the root. *)
Definition lookup (f : files) (name : string) : option file :=
  if negb (ValidPath name) then None
  else if String.eqb name "." then Some directory
  else f !! name.

(** [openFile] has [Seek]; [openDir] has not.  [Stat] never fails and the
    modification time is the zero time. *)
Definition opened (name : string) (e : file) : File :=
  match e with
  | regular data =>
      {| Stat := inl {| Name := baseName name;
                        Size := Z.of_nat (String.length data);
                        ModTime := zeroTime; IsDir := false |};
         asReadSeeker := Some data |}
  | directory =>
      {| Stat := inl {| Name := baseName name; Size := 0;
                        ModTime := zeroTime; IsDir := true |};
         asReadSeeker := None |}
  end.

(** [FS.Open] *)
Definition FS (f : files) : fs.FS :=
  {| Open := fun name =>
       match lookup f name with
       | None => inr (PathError "open" name ErrNotExist)
       | Some e => inl (opened name e)
       end |}.

End embed.

(** ** [os.DirFS] *)
Module os.
Import GoStrings fs.

(** [os.DirFS(dir).Open]: the name is validated, then [os.Open] is called
    on [dir + "/" + name].  [osOpen] is [os.Open] on the host. *)
Definition DirFS (osOpen : string -> File + error) (dir : string) : fs.FS :=
  {| Open := fun name =>
       if negb (ValidPath name)
       then inr (PathError "open" name ErrInvalid)
       else osOpen (dir +:+ "/" +:+ name) |}.

(** A small Unix host for examples: the table lists the regular files of
    the host by absolute path, all with the same modification time.  The
    directories of the examples hold files only, and no example opens a
    directory of the host.

    [belowFile disk parent rest]: walking from [parent] down the elements
    [rest], the walk meets a regular file before its last element. *)
Fixpoint belowFile (disk : gmap string string) (parent : string)
    (rest : list string) : bool :=
  match rest with
  | [] => false
  | elem :: rest' =>
      match disk !! parent with
      | Some _ => true
      | None => belowFile disk (parent +:+ "/" +:+ elem) rest'
      end
  end.

(** [os.Open] on that host: a file of the table opens; a path that leads
    through a regular file is refused with ENOTDIR; anything else is
    absent, ENOENT. *)
Definition diskOpen (disk : gmap string string) (mtime : Time)
    (path : string) : File + error :=
  match disk !! path with
  | Some data =>
      inl {| Stat := inl {| Name := embed.baseName path;
                            Size := Z.of_nat (String.length data);
                            ModTime := mtime; IsDir := false |};
             asReadSeeker := Some data |}
  | None =>
      match splitSlash path with
      | first :: rest =>
          if belowFile disk first rest
          then inr (PathError "open" path ENOTDIR)
          else inr (PathError "open" path ENOENT)
      | [] => inr (PathError "open" path ENOENT)
      end
  end.

End os.

(* ===================================================================== *)
(** * Package [net/http]                                                  *)
(* ===================================================================== *)

Module http.
Import GoStrings fs.

Definition StatusOK : Z := 200.
Definition StatusNoContent : Z := 204.
Definition StatusNotModified : Z := 304.
Definition StatusForbidden : Z := 403.
Definition StatusInternalServerError : Z := 500.

(** *** Header: [map[string][]string] with canonical keys *)

Abbreviation Header := (gmap string (list string)).

Definition isLower : ascii -> bool := inRange 97 122.
Definition isUpper : ascii -> bool := inRange 65 90.
Definition isDigit : ascii -> bool := inRange 48 57.
Definition toUpper (c : ascii) : ascii :=
  if isLower c then ascii_of_N (byte c - 32) else c.
Definition toLower (c : ascii) : ascii :=
  if isUpper c then ascii_of_N (byte c + 32) else c.

(** The bytes of an HTTP token. *)
Definition validHeaderFieldByte (c : ascii) : bool :=
  isLower c || isUpper c || isDigit c
  || existsb (N.eqb (byte c))
       [33; 35; 36; 37; 38; 39; 42; 43; 45; 46; 94; 95; 96; 124; 126]%N.

Fixpoint canonical (upper : bool) (s : string) : string :=
  match s with
  | EmptyString => EmptyString
  | String c r =>
      String (if upper then toUpper c else toLower c)
             (canonical (Ascii.eqb c "-") r)
  end.

(** [textproto.CanonicalMIMEHeaderKey] *)
Definition CanonicalMIMEHeaderKey (s : string) : string :=
  if forallb validHeaderFieldByte (list_ascii_of_string s)
  then canonical true s else s.

Definition Values (h : Header) (key : string) : list string :=
  default [] (h !! CanonicalMIMEHeaderKey key).

Definition Get (h : Header) (key : string) : string :=
  match Values h key with v :: _ => v | [] => "" end.

Definition Add (h : Header) (key value : string) : Header :=
  <[CanonicalMIMEHeaderKey key := Values h key ++ [value]]> h.

Definition Set_ (h : Header) (key value : string) : Header :=
  <[CanonicalMIMEHeaderKey key := [value]]> h.

Definition Del (h : Header) (key : string) : Header :=
  delete (CanonicalMIMEHeaderKey key) h.

(** *** ResponseWriter, as the server implements it

    [header] is the live map behind [w.Header()].  [WriteHeader] fixes the
    status and the headers that go out: later changes of the map are not
    sent.  [body] is what is sent after the headers.  A response with
    status 1xx, 204 or 304 has no body: [Write] then fails with
    [ErrBodyNotAllowed] and the bytes go nowhere; [refused] keeps them, to
    record what the handler handed to the writer. *)
Record ResponseWriter := {
  header : Header;
  wroteHeader : option (Z * Header);
  body : string;
  refused : string
}.

(** The writer the server gives a handler, with the headers [h] that
    earlier middleware has put in the map. *)
Definition newResponse (h : Header) : ResponseWriter :=
  {| header := h; wroteHeader := None; body := ""; refused := "" |}.

Definition status (w : ResponseWriter) : option Z := fst <$> wroteHeader w.

(** The values of a header as sent, if the headers have been sent. *)
Definition sent (w : ResponseWriter) (key : string) : option (list string) :=
  (fun p => Values (snd p) key) <$> wroteHeader w.

Definition setHeader (f : Header -> Header) (w : ResponseWriter) : ResponseWriter :=
  {| header := f (header w); wroteHeader := wroteHeader w;
     body := body w; refused := refused w |}.

Definition WriteHeader (code : Z) (w : ResponseWriter) : ResponseWriter :=
  match wroteHeader w with
  | Some _ => w                         (* superfluous WriteHeader call *)
  | None => {| header := header w; wroteHeader := Some (code, header w);
               body := body w; refused := refused w |}
  end.

Definition bodyAllowedForStatus (code : Z) : bool :=
  if (100 <=? code) && (code <=? 199) then false
  else if code =? StatusNoContent then false
  else if code =? StatusNotModified then false
  else true.

Definition Write (data : string) (w : ResponseWriter) : ResponseWriter :=
  let w := WriteHeader StatusOK w in    (* if !w.wroteHeader *)
  match wroteHeader w with
  | Some (code, _) =>
      if bodyAllowedForStatus code
      then {| header := header w; wroteHeader := wroteHeader w;
              body := body w +:+ data; refused := refused w |}
      else {| header := header w; wroteHeader := wroteHeader w;
              body := body w; refused := refused w +:+ data |}
  | None => w
  end.

(** [http.Error] *)
Definition Error (error : string) (code : Z) (w : ResponseWriter) : ResponseWriter :=
  let w := setHeader (fun h => Del h "Content-Length") w in
  let w := setHeader (fun h => Set_ h "Content-Type" "text/plain; charset=utf-8") w in
  let w := setHeader (fun h => Set_ h "X-Content-Type-Options" "nosniff") w in
  let w := WriteHeader code w in
  Write (error +:+ newline) w.                        (* fmt.Fprintln *)

(** What the handler takes from its surroundings: the commit of the build
    ([platform.GetBuildInfo().Commit]), the table of [mime.TypeByExtension],
    the sniffer [http.DetectContentType] and the layout [http.TimeFormat]
    of a time. *)
Record Env := {
  Commit : string;
  TypeByExtension : string -> string;
  DetectContentType : string -> string;
  formatTime : Time -> string
}.

(** A request: its [URL.Path].  The method is GET and the request has no
    conditional and no Range header; what [ServeContent] does with those
    stays inside [net/http]. *)
Record Request := { URL_Path : string }.

Definition sniffLen : nat := 512.

Definition unixEpochTime : Time := {| unix := 0; nsec := 0 |}.

(** [isZeroTime]: [t.IsZero() || t.Equal(unixEpochTime)]. *)
Definition isZeroTime (t : Time) : bool :=
  IsZero t || Equal t unixEpochTime.

Definition setLastModified (env : Env) (modtime : Time) (w : ResponseWriter)
  : ResponseWriter :=
  if negb (isZeroTime modtime)
  then setHeader (fun h => Set_ h "Last-Modified" (formatTime env modtime)) w
  else w.

(** [http.ServeContent] for such a request over a seekable [content] whose
    [Seek] and [Read] succeed: Last-Modified when there is a time,
    Content-Type from the extension of [name] or from the first bytes
    unless the map has the key already, Content-Length, status 200 and the
    whole content.  The other answers of [net/http] (304 and 412 to
    conditional headers, 206 and 416 to a Range header, no body to HEAD,
    500 when [Seek] fails) are outside this model, which reads nothing of
    [r]. *)
Definition ServeContent (env : Env) (r : Request) (name : string)
    (modtime : Time) (content : string) (w : ResponseWriter) : ResponseWriter :=
  let w := setLastModified env modtime w in
  let w :=
    match header w !! "Content-Type" with
    | None =>
        let ctype := TypeByExtension env (filepath.Ext name) in
        let ctype :=
          if String.eqb ctype ""
          then DetectContentType env (String.substring 0 sniffLen content)
          else ctype in
        setHeader (fun h => Set_ h "Content-Type" ctype) w
    | Some _ => w
    end in
  let size := Z.of_nat (String.length content) in
  let w := setHeader (fun h => Set_ h "Accept-Ranges" "bytes") w in
  let w :=
    if String.eqb (Get (header w) "Content-Encoding") ""
    then setHeader (fun h => Set_ h "Content-Length" (formatInt size)) w
    else w in
  let w := WriteHeader StatusOK w in
  Write content w.

End http.
(* ===================================================================== *)
(** * Package [static]                                                    *)
(* ===================================================================== *)

Module static.
Import GoStrings filepath fs http.

(** ** The state a handler runs in *)

(** What a handler does to the asset source. *)
Inductive FsEvent :=
| EvOpen (name : string) (result : File + error)
| EvClose (f : File).

Record State := {
  resp : ResponseWriter;          (* w *)
  trace : list FsEvent            (* oldest event first *)
}.

(** How a piece of handler code ends: it falls through with a value, it
    executes [return], or it panics. *)
Inductive Completion (A : Type) :=
| Normal (a : A)
| Return_
| Panic (msg : string).
Arguments Normal {A} a.
Arguments Return_ {A}.
Arguments Panic {A} msg.

Definition M (A : Type) : Type := State -> State * Completion A.

Definition ret {A} (a : A) : M A := fun s => (s, Normal a).

Definition bind {A B} (m : M A) (k : A -> M B) : M B :=
  fun s =>
    match m s with
    | (s', Normal a) => k a s'
    | (s', Return_) => (s', Return_)
    | (s', Panic msg) => (s', Panic msg)
    end.

Notation "x <- m ;; k" := (bind m (fun x => k))
  (at level 100, m at next level, right associativity).
Notation "m ;;; k" := (bind m (fun _ => k))
  (at level 100, right associativity).

Definition return_ {A} : M A := fun s => (s, Return_).
Definition panic {A} (msg : string) : M A := fun s => (s, Panic msg).

(** [defer d] followed by [body]: [d] runs when [body] falls through,
    returns or panics. *)
Definition defer {A} (d : M unit) (body : M A) : M A :=
  fun s =>
    match body s with
    | (s', c) => (fst (d s'), c)
    end.

Definition onWriter (f : ResponseWriter -> ResponseWriter) : M unit :=
  fun s => ({| resp := f (resp s); trace := trace s |}, Normal tt).

Definition emit (e : FsEvent) : M unit :=
  fun s => ({| resp := resp s; trace := trace s ++ [e] |}, Normal tt).

(** [fileOpener.Open(name)] *)
Definition doOpen (fileOpener : FS) (name : string) : M (File + error) :=
  let result := Open fileOpener name in
  emit (EvOpen name result) ;;; ret result.

(** [f.Close()] *)
Definition doClose (f : File) : M unit := emit (EvClose f).

(** The run-time panic of a call through a nil interface or pointer. *)
Definition nilDereference : string :=
  "runtime error: invalid memory address or nil pointer dereference".

(** [err.Error()] on a variable of type [error]: a nil interface has no
    method to call and the call panics. *)
Definition callError (err : option error) : M string :=
  match err with
  | Some e => ret (fs.Error e)
  | None => panic nilDereference
  end.

Definition Handler : Type := Request -> M unit.

(** [h.ServeHTTP(w, r)]: a [return] inside [h] ends [h] only. *)
Definition ServeHTTP (h : Handler) (r : Request) : M unit :=
  fun s =>
    match h r s with
    | (s', Return_) => (s', Normal tt)
    | other => other
    end.

(** ** The code of [assets.go] *)

Definition defaultFile : string := "index.html".
Definition embedPrefix : string := "build".

(** [mwSetCacheControl] *)
Definition mwSetCacheControl (next : Handler) : Handler :=
  fun r =>
    onWriter (setHeader (fun h => Add h "Cache-Control" "public, max-age=3600")) ;;;
    ServeHTTP next r.

(** [fileHandler2].  [err] is one variable of the function: line 72
    declares it, lines 75 and 89 assign it. *)
Definition fileHandler2 (env : Env) (fileOpener : FS) (dir : string) : Handler :=
  fun r =>
    (* line 60 *)
    let name := Clean (TrimPrefix (URL_Path r) "/") in
    (* lines 65-68 *)
    name <- (if String.eqb name "." then
               let name := Join [dir; defaultFile] in
               onWriter (setHeader (fun h => Set_ h "Content-Type" "text/html")) ;;;
               ret name
             else ret name) ;;
    (* line 72 *)
    res <- doOpen fileOpener (Join [dir; name]) ;;
    f <- match res with
         | inl f => ret f
         | inr err =>
             (* lines 74-76 *)
             res <- (if IsNotExist err
                     then doOpen fileOpener (Join [dir; defaultFile])
                     else ret (inr err)) ;;
             match res with
             | inr err =>
                 (* lines 77-82 *)
                 onWriter (http.Error (fs.Error err) StatusNoContent) ;;;
                 return_
             | inl f =>
                 (* line 85 *)
                 onWriter (setHeader (fun h => Set_ h "Content-Type" "text/html")) ;;;
                 ret f
             end
         end ;;
    (* line 87 *)
    defer (doClose f)
      ((* line 89 *)
       match Stat f with
       | inr err =>
           (* lines 90-93 *)
           onWriter (http.Error (fs.Error err) StatusForbidden) ;;;
           return_
       | inl i =>
           (* [Stat] returned [(i, nil)]: past line 93 [err] is nil *)
           let err : option error := None in
           (* line 95 *)
           match asReadSeeker f with
           | None =>
               (* lines 96-100 *)
               msg <- callError err ;;
               onWriter (http.Error msg StatusInternalServerError) ;;;
               return_
           | Some content =>
               (* lines 106-107: the format is W/, then name-size-commit
                  between double quotes *)
               let etag := "W/" +:+ dquote +:+ Name i +:+ "-" +:+ formatInt (Size i)
                                +:+ "-" +:+ Commit env +:+ dquote in
               onWriter (setHeader (fun h => Set_ h "ETag" etag)) ;;;
               (* line 113 *)
               onWriter (ServeContent env r name (ModTime i) content)
           end
       end).

(** What [NewAssetHandler] reads besides its argument: the embedded
    [assets] and the host's [os.Open]. *)
Record Sources := {
  assets : embed.files;
  osOpen : string -> File + error
}.

(** [NewAssetHandler] *)
Definition NewAssetHandler (env : Env) (src : Sources) (assetsPath : string)
  : Handler :=
  let assetHandler :=
    if negb (String.eqb assetsPath "")
    then fileHandler2 env (os.DirFS (osOpen src) assetsPath) ""
    else fileHandler2 env (embed.FS (assets src)) embedPrefix in
  mwSetCacheControl assetHandler.

(** ** Running a handler and observing the exchange *)

Inductive Outcome := Returned | Panicked (msg : string).

(** The server calls the handler with a fresh writer whose header map is
    [h0] and nothing open. *)
Definition serve (h : Handler) (h0 : Header) (r : Request) : State * Outcome :=
  match ServeHTTP h r {| resp := newResponse h0; trace := [] |} with
  | (s, Panic msg) => (s, Panicked msg)
  | (s, _) => (s, Returned)
  end.

Definition response (h : Handler) (h0 : Header) (r : Request) : ResponseWriter :=
  resp (fst (serve h h0 r)).

Definition outcome (h : Handler) (h0 : Header) (r : Request) : Outcome :=
  snd (serve h h0 r).

Definition events (h : Handler) (h0 : Header) (r : Request) : list FsEvent :=
  trace (fst (serve h h0 r)).

Definition get (path : string) : Request := {| URL_Path := path |}.

End static.

(* ===================================================================== *)
(** * Vocabulary of the properties                                        *)
(* ===================================================================== *)

Module Behaviour.
Import GoStrings filepath fs http static.

(** The cleaned request path: [name] after line 60. *)
Definition requested (r : Request) : string :=
  Clean (TrimPrefix (URL_Path r) "/").

(** [name] after the root-path test of lines 65-68. *)
Definition lookupName (dir : string) (r : Request) : string :=
  if String.eqb (requested r) "." then Join [dir; defaultFile] else requested r.

(** The name of the first [Open] (line 72) and of the fallback (line 75). *)
Definition firstPath (dir : string) (r : Request) : string :=
  Join [dir; lookupName dir r].

Definition fallbackPath (dir : string) : string := Join [dir; defaultFile].

(** The handle the request resolves to, or the error that ends it. *)
Definition resolve (fsys : FS) (dir : string) (r : Request) : File + error :=
  match Open fsys (firstPath dir r) with
  | inl f => inl f
  | inr err => if IsNotExist err then Open fsys (fallbackPath dir) else inr err
  end.

(** The weak validator of line 106. *)
Definition etagOf (env : Env) (i : FileInfo) : string :=
  "W/" +:+ dquote +:+ Name i +:+ "-" +:+ formatInt (Size i) +:+ "-"
       +:+ Commit env +:+ dquote.

(** The lookups of a request, in order: the first [Open] and, after a
    does-not-exist error, the fallback. *)
Definition attempts (fsys : FS) (dir : string) (r : Request) : list FsEvent :=
  match Open fsys (firstPath dir r) with
  | inl f => [EvOpen (firstPath dir r) (inl f)]
  | inr err =>
      EvOpen (firstPath dir r) (inr err) ::
      (if IsNotExist err
       then [EvOpen (fallbackPath dir) (Open fsys (fallbackPath dir))] else [])
  end.

(** The header map when the first [Open] is made, and when the handle is
    there (lines 67 and 85 mark the response as HTML). *)
Definition rootHeader (h0 : Header) (r : Request) : Header :=
  if String.eqb (requested r) "." then Set_ h0 "Content-Type" "text/html" else h0.

Definition headerAtOpen (fsys : FS) (dir : string) (h0 : Header) (r : Request)
  : Header :=
  match Open fsys (firstPath dir r) with
  | inl _ => rootHeader h0 r
  | inr _ => Set_ (rootHeader h0 r) "Content-Type" "text/html"
  end.

(** The Content-Type that [ServeContent] infers when the header map has
    none: from the extension of the name, else from the first bytes. *)
Definition inferredType (env : Env) (name content : string) : string :=
  let ctype := TypeByExtension env (Ext name) in
  if String.eqb ctype ""
  then DetectContentType env (String.substring 0 sniffLen content)
  else ctype.

(** Reading a trace. *)
Definition lookedUp (t : list FsEvent) : list string :=
  omap (fun e => match e with EvOpen name _ => Some name | _ => None end) t.

Definition opened (t : list FsEvent) : list File :=
  omap (fun e => match e with EvOpen _ (inl f) => Some f | _ => None end) t.

Definition openedAs (t : list FsEvent) : list string :=
  omap (fun e => match e with EvOpen name (inl _) => Some name | _ => None end) t.

Definition closed (t : list FsEvent) : list File :=
  omap (fun e => match e with EvClose f => Some f | _ => None end) t.

Fixpoint removeFirst (f : File) (l : list File) : list File :=
  match l with
  | [] => []
  | g :: l => if decide (f = g) then l else g :: removeFirst f l
  end.

(** The handles that are open at the end of a trace. *)
Definition leaked (t : list FsEvent) : list File :=
  fold_left (fun held e =>
               match e with
               | EvOpen _ (inl f) => held ++ [f]
               | EvOpen _ (inr _) => held
               | EvClose f => removeFirst f held
               end) t [].

(** A name without a [..] element. *)
Definition traversalFree (name : string) : bool :=
  forallb (fun elem => negb (String.eqb elem "..")) (splitSlash name).

(** Two results of [Open] that a client cannot tell apart: both fail, and
    both or neither for want of the entry; or both give a handle, with the
    same content behind it and the same luck with [Stat]. *)
Definition statText (s : FileInfo + error) : option string :=
  match s with inl _ => None | inr e => Some (fs.Error e) end.

Definition sameEntry (a b : File + error) : Prop :=
  match a, b with
  | inl f, inl g =>
      asReadSeeker f = asReadSeeker g /\ statText (Stat f) = statText (Stat g)
  | inr e, inr e' => IsNotExist e = IsNotExist e'
  | _, _ => False
  end.

(** An asset source that opens nothing under a name [fs.ValidPath] refuses. *)
Definition validating (fsys : FS) : Prop :=
  forall name f, Open fsys name = inl f -> ValidPath name = true.

(** The bundle under its prefix and the directory [assetsPath] hold the
    same thing at the slash-separated name [p]. *)
Definition equivalentAt (src : Sources) (assetsPath p : string) : Prop :=
  sameEntry (Open (embed.FS (assets src)) (embedPrefix +:+ "/" +:+ p))
            (Open (os.DirFS (osOpen src) assetsPath) p).

End Behaviour.

(** ** Sample sources *)

Module Sample.
Import GoStrings filepath fs http static.

Definition env : Env :=
  {| Commit := "abc123";
     TypeByExtension := fun ext =>
       if String.eqb ext ".js" then "text/javascript; charset=utf-8"
       else if String.eqb ext ".html" then "text/html; charset=utf-8"
       else "";
     DetectContentType := fun _ => "application/octet-stream";
     formatTime := fun t => formatInt (unix t) |}.

(** A bundle with a sub-directory. *)
Definition bundle : embed.files :=
  <["build" := embed.directory]>
  (<["build/index.html" := embed.regular "A"]>
  (<["build/app.js" := embed.regular "BB"]>
  (<["build/static" := embed.directory]>
  (<["build/static/logo.svg" := embed.regular "<svg/>"]> ∅)))).

(** A bundle whose output directory has a [build] directory of its own. *)
Definition nested : embed.files :=
  <["build" := embed.directory]>
  (<["build/index.html" := embed.regular "A"]>
  (<["build/build" := embed.directory]>
  (<["build/build/index.html" := embed.regular "B"]> ∅))).

(** A bundle with only the fallback document, and a directory with the
    same. *)
Definition shell : embed.files :=
  <["build" := embed.directory]>
  (<["build/index.html" := embed.regular "A"]> ∅).

Definition disk : gmap string string :=
  <["/ui/index.html" := "A"]> (<["/ui/app.js" := "BB"]> ∅).

Definition shellDisk : gmap string string := <["/ui/index.html" := "A"]> ∅.

Definition mtime : Time := {| unix := 1614556800; nsec := 0 |}.

(** Half a second after the Unix epoch. *)
Definition earlyTime : Time := {| unix := 0; nsec := 500000000 |}.

Definition sources : Sources :=
  {| assets := bundle; osOpen := os.diskOpen disk mtime |}.

Definition nestedSources : Sources :=
  {| assets := nested; osOpen := os.diskOpen disk mtime |}.

Definition shellSources : Sources :=
  {| assets := shell; osOpen := os.diskOpen shellDisk mtime |}.

(** A source whose every handle fails to report its metadata. *)
Definition unreadable : FS :=
  {| Open := fun _ => inl {| Stat := inr (bare EIO); asReadSeeker := Some "x" |} |}.

End Sample.

(** ** The simpler handler of [assets.go], and more vocabulary *)

Module simpler.
Import GoStrings filepath fs http static.

(** [fsFunc]: a function taken as an [fs.FS]; its [Open] calls it. *)
Definition fsFunc (f : string -> File + error) : FS := {| Open := f |}.

(** The file system [fsys] that [fileHandler] builds (lines 134-142) and
    hands to [http.FileServer]: a name that does not exist under [dir] is
    opened as the default file.  [os.IsNotExist] of the nil error of a
    successful [Open] is false.  ([http.FileServer] itself is not part of
    this development.) *)
Definition fileHandler_fsys (fileOpener : FS) (dir : string) : FS :=
  fsFunc (fun name =>
    match Open fileOpener (Join [dir; name]) with
    | inr err =>
        if IsNotExist err then Open fileOpener (Join [dir; defaultFile])
        else inr err
    | inl f => inl f
    end).

(** A string without the byte ['-']. *)
Fixpoint dashFree (s : string) : bool :=
  match s with
  | EmptyString => true
  | String c r => negb (Ascii.eqb c "-") && dashFree r
  end.

(** A string without the separator. *)
Fixpoint slashFree (s : string) : bool :=
  match s with
  | EmptyString => true
  | String c r => negb (Ascii.eqb c "/") && slashFree r
  end.

(** An ordinary path element: not empty, not a dot, not a double dot, and
    without separator. *)
Definition ordinary (e : string) : Prop :=
  validElem e = true /\ slashFree e = true.

(** The shape of the output buffer of [Clean], last element first:
    ordinary elements on top of the leading double dots that only a relative
    path keeps. *)
Definition buffer (rooted : bool) (out : list string) : Prop :=
  exists R D, out = R ++ D /\ Forall ordinary R /\ Forall (eq "..") D /\
              (rooted = true -> D = []).

End simpler.

(* ===================================================================== *)
(** * The library models against the tables of Go's own tests            *)
(* ===================================================================== *)

Module PathTests.
Import GoStrings filepath fs.

Example clean_tests :
  map Clean ["abc"; "abc/def"; "a/b/c"; "."; ".."; "../.."; "../../abc";
             "/abc"; "/"; ""; "abc/"; "abc/def/"; "a/b/c/"; "./"; "../";
             "../../"; "/abc/"; "abc//def//ghi"; "abc//"; "abc/./def";
             "/./abc/def"; "abc/."; "abc/def/ghi/../jkl"; "abc/def/../ghi/../jkl";
             "abc/def/.."; "abc/def/../.."; "/abc/def/../.."; "abc/def/../../..";
             "/abc/def/../../.."; "abc/def/../../../ghi/jkl/../../../mno";
             "/../abc"; "abc/./../def"; "abc//./../def"; "abc/../../././../def";
             "//abc"; "///abc"]
  = ["abc"; "abc/def"; "a/b/c"; "."; ".."; "../.."; "../../abc";
     "/abc"; "/"; "."; "abc"; "abc/def"; "a/b/c"; "."; "..";
     "../.."; "/abc"; "abc/def/ghi"; "abc"; "abc/def";
     "/abc/def"; "abc"; "abc/def/jkl"; "abc/jkl";
     "abc"; "."; "/"; "..";
     "/"; "../../mno";
     "/abc"; "def"; "def"; "../../def";
     "/abc"; "/abc"].
Proof. vm_compute. reflexivity. Qed.

Example join_tests :
  map Join [[]; [""]; ["a"]; ["a"; "b"]; ["a"; ""]; [""; "b"]; ["/"; "a"];
            [""; ""]; ["a/"; "b"]; ["a/"; ""]; ["build"; "../../secret"];
            ["build"; "build/index.html"]; [""; "index.html"]; ["build"; "/"]]
  = [""; ""; "a"; "a/b"; "a"; "b"; "/a";
     ""; "a/b"; "a"; "../secret";
     "build/build/index.html"; "index.html"; "build"].
Proof. vm_compute. reflexivity. Qed.

Example ext_tests :
  map Ext ["path.go"; "path.pb.go"; "a.dir/b"; "a.dir/b.go"; "a.dir/"; ""]
  = [".go"; ".go"; ""; ".go"; ""; ""].
Proof. vm_compute. reflexivity. Qed.

Example trim_tests :
  map (fun s => TrimPrefix s "/") ["/"; "/app.js"; "//x"; "x"; ""]
  = [""; "app.js"; "/x"; "x"; ""].
Proof. vm_compute. reflexivity. Qed.

Example utf8_tests :
  map ValidString ["abc"; String (ascii_of_nat 195) (String (ascii_of_nat 169) "");
                   String (ascii_of_nat 255) ""; String (ascii_of_nat 192) (String (ascii_of_nat 128) "")]
  = [true; true; false; false].
Proof. vm_compute. reflexivity. Qed.

Example format_tests :
  map formatInt [0; 7; 1234; -5] = ["0"; "7"; "1234"; "-5"].
Proof. vm_compute. reflexivity. Qed.
End PathTests.

(* ===================================================================== *)
(** * Headers and the writer                                              *)
(* ===================================================================== *)

Module HeaderFacts.
Import GoStrings filepath fs http.

Lemma lookup_Set h k v k' :
  Set_ h k v !! k' =
  if decide (CanonicalMIMEHeaderKey k = k') then Some [v] else h !! k'.
Proof. unfold Set_. apply lookup_insert. Qed.

Lemma lookup_Add h k v k' :
  Add h k v !! k' =
  if decide (CanonicalMIMEHeaderKey k = k') then Some (Values h k ++ [v])
  else h !! k'.
Proof. unfold Add. apply lookup_insert. Qed.

Lemma lookup_Del h k k' :
  Del h k !! k' = if decide (CanonicalMIMEHeaderKey k = k') then None else h !! k'.
Proof. unfold Del. apply lookup_delete. Qed.

(** The keys the handler and [net/http] use, in canonical form. *)
Example canonical_keys :
  map CanonicalMIMEHeaderKey
      ["Content-Type"; "ETag"; "Cache-Control"; "Content-Length";
       "X-Content-Type-Options"; "Last-Modified"; "Accept-Ranges";
       "Content-Encoding"; "content-type"; "not a token"]
  = ["Content-Type"; "Etag"; "Cache-Control"; "Content-Length";
     "X-Content-Type-Options"; "Last-Modified"; "Accept-Ranges";
     "Content-Encoding"; "Content-Type"; "not a token"].
Proof. reflexivity. Qed.

Ltac canonical_keys :=
  change (CanonicalMIMEHeaderKey "Content-Type") with "Content-Type" in *;
  change (CanonicalMIMEHeaderKey "Last-Modified") with "Last-Modified" in *;
  change (CanonicalMIMEHeaderKey "Accept-Ranges") with "Accept-Ranges" in *;
  change (CanonicalMIMEHeaderKey "Content-Length") with "Content-Length" in *;
  change (CanonicalMIMEHeaderKey "X-Content-Type-Options")
    with "X-Content-Type-Options" in *;
  change (CanonicalMIMEHeaderKey "Cache-Control") with "Cache-Control" in *;
  change (CanonicalMIMEHeaderKey "Content-Encoding") with "Content-Encoding" in *;
  change (CanonicalMIMEHeaderKey "ETag") with "Etag" in *.

(** Push a lookup through the updates of the map. *)
Ltac header_lookup :=
  repeat (rewrite ?lookup_Set, ?lookup_Add, ?lookup_Del in *;
          canonical_keys; repeat case_decide; simplify_eq).

(** [http.Error] on a writer that has sent nothing yet. *)
Lemma Error_run msg code w :
  wroteHeader w = None ->
  let w' := http.Error msg code w in
  header w' = Set_ (Set_ (Del (header w) "Content-Length")
                         "Content-Type" "text/plain; charset=utf-8")
                   "X-Content-Type-Options" "nosniff" /\
  wroteHeader w' = Some (code, header w') /\
  body w' = (if bodyAllowedForStatus code
             then body w +:+ msg +:+ newline else body w) /\
  refused w' = (if bodyAllowedForStatus code
                then refused w else refused w +:+ msg +:+ newline).
Proof.
  intros Hw. destruct w as [h wh b rf]; cbn in Hw; subst wh.
  unfold http.Error, Write, WriteHeader, setHeader;
    cbn [header wroteHeader body refused].
  destruct (bodyAllowedForStatus code); cbn [header wroteHeader body refused];
    auto.
Qed.

(** [http.ServeContent] on a writer that has sent nothing yet: status 200,
    the content after what the body holds, a Content-Type that is in the map
    is left alone, and only four keys of the map are written. *)
Lemma ServeContent_run env r name mt content w :
  wroteHeader w = None ->
  let w' := ServeContent env r name mt content w in
  wroteHeader w' = Some (StatusOK, header w') /\
  body w' = body w +:+ content /\
  refused w' = refused w /\
  (forall v, header w !! "Content-Type" = Some v ->
             header w' !! "Content-Type" = Some v) /\
  (forall k, k ∉ ["Last-Modified"; "Content-Type"; "Accept-Ranges";
                  "Content-Length"] ->
             header w' !! k = header w !! k).
Proof.
  intros Hw. destruct w as [h wh b rf]; cbn in Hw; subst wh.
  unfold ServeContent, setLastModified.
  destruct (negb (isZeroTime mt));
    cbn [setHeader header wroteHeader body refused];
    match goal with
    | |- context [match ?c with Some _ => _ | None => _ end] =>
        destruct c eqn:Hct
    end; cbn [setHeader header wroteHeader body refused];
    match goal with
    | |- context [if ?c then _ else _] => destruct c
    end;
    cbn [setHeader header wroteHeader body refused WriteHeader Write
         bodyAllowedForStatus];
    cbn -[Set_ lookup];
    (split; [reflexivity|]); (split; [reflexivity|]); (split; [reflexivity|]);
    (split; [intros v Hv | intros k Hk]).
  all: header_lookup; try done; try congruence.
  all: exfalso; apply Hk; set_solver.
Qed.

(** Without a Content-Type in the map, [ServeContent] infers one. *)
Lemma ServeContent_infers env r name mt content w :
  wroteHeader w = None -> header w !! "Content-Type" = None ->
  header (ServeContent env r name mt content w) !! "Content-Type"
  = Some [Behaviour.inferredType env name content].
Proof.
  intros Hw Hct. destruct w as [h wh b rf]; cbn in Hw, Hct; subst wh.
  unfold ServeContent, setLastModified, Behaviour.inferredType.
  destruct (negb (isZeroTime mt));
    cbn [setHeader header wroteHeader body refused];
    rewrite ?lookup_Set; canonical_keys; repeat case_decide; try done;
    rewrite Hct;
    cbn [setHeader header wroteHeader body refused];
    match goal with
    | |- context [if String.eqb (Get ?h ?k) "" then _ else _] =>
        destruct (String.eqb (Get h k) "")
    end;
    cbn [setHeader header wroteHeader body refused WriteHeader Write
         bodyAllowedForStatus];
    cbn -[Set_ lookup];
    header_lookup; done.
Qed.

End HeaderFacts.

(* ===================================================================== *)
(** * Paths                                                               *)
(* ===================================================================== *)

Module PathFacts.
Import GoStrings filepath fs static.

Lemma splitSlash_nonempty s : splitSlash s <> [].
Proof.
  destruct s as [|c r]; cbn; [done|].
  destruct (Ascii.eqb c "/"); [done|]. destruct (splitSlash r); done.
Qed.

Lemma joinSlash_cons e es :
  es <> [] -> joinSlash (e :: es) = e +:+ "/" +:+ joinSlash es.
Proof. destruct es; [done|reflexivity]. Qed.

(** Splitting at the separators and joining again gives the string back. *)
Lemma joinSlash_splitSlash s : joinSlash (splitSlash s) = s.
Proof.
  induction s as [|c r IH]; [reflexivity|].
  cbn [splitSlash]. destruct (Ascii.eqb c "/") eqn:Hc.
  - apply Ascii.eqb_eq in Hc; subst c.
    rewrite joinSlash_cons by apply splitSlash_nonempty. cbn. by rewrite IH.
  - pose proof (splitSlash_nonempty r) as Hne.
    destruct (splitSlash r) as [|e es]; [done|].
    destruct es as [|e' es].
    + cbn in *. by rewrite IH.
    + rewrite joinSlash_cons by done. rewrite joinSlash_cons in IH by done.
      rewrite <- IH. reflexivity.
Qed.

Lemma splitSlash_app a b :
  splitSlash (a +:+ "/" +:+ b) = splitSlash a ++ splitSlash b.
Proof.
  induction a as [|c r IH]; [reflexivity|].
  change (String c r +:+ "/" +:+ b) with (String c (r +:+ "/" +:+ b)).
  cbn [splitSlash]. destruct (Ascii.eqb c "/"); [by rewrite IH|].
  rewrite IH. pose proof (splitSlash_nonempty r).
  destruct (splitSlash r); done.
Qed.

(** Over ordinary elements the loop of [Clean] only appends. *)
Lemma cleanStep_valid rooted l out :
  forallb validElem l = true ->
  fold_left (cleanStep rooted) l out = rev l ++ out.
Proof.
  revert out. induction l as [|e l IH]; intros out H; [reflexivity|].
  cbn in H. apply andb_true_iff in H as [He Hl].
  cbn [fold_left]. rewrite IH by done.
  unfold validElem in He. apply negb_true_iff in He.
  apply orb_false_iff in He as [He H3]. apply orb_false_iff in He as [H1 H2].
  unfold cleanStep. rewrite H1, H2, H3. cbn [rev]. by rewrite <- app_assoc.
Qed.

(** A path of ordinary elements is clean already. *)
Lemma Clean_valid p : forallb validElem (splitSlash p) = true -> Clean p = p.
Proof.
  intros H. unfold Clean.
  destruct p as [|c r]; [discriminate|].
  cbn [String.eqb].
  assert (Hroot : String.prefix "/" (String c r) = false).
  { change (String.prefix "/" (String c r))
      with (if ascii_dec "/" c then String.prefix "" r else false).
    destruct (ascii_dec "/" c) as [<-|]; [|done].
    cbn in H. discriminate. }
  rewrite Hroot. rewrite cleanStep_valid by done.
  rewrite app_nil_r, rev_involutive, joinSlash_splitSlash. reflexivity.
Qed.

Lemma ValidPath_elems p :
  ValidPath p = true -> p <> "." -> forallb validElem (splitSlash p) = true.
Proof.
  unfold ValidPath. destruct (negb (ValidString p)); [done|].
  destruct (String.eqb p ".") eqn:E; [|done].
  apply String.eqb_eq in E. done.
Qed.

(** With the empty prefix a valid name is looked up as it is. *)
Lemma Join_root name :
  ValidPath name = true -> name <> "." -> Join [""; name] = name.
Proof.
  intros Hv Hd. pose proof (ValidPath_elems _ Hv Hd) as He.
  cbn. destruct name as [|c r]; [discriminate|].
  cbn [String.eqb]. change (joinSlash [String c r]) with (String c r).
  by apply Clean_valid.
Qed.

(** With the prefix of the bundle a valid name is looked up below it. *)
Lemma Join_prefix name :
  ValidPath name = true -> name <> "." ->
  Join [embedPrefix; name] = embedPrefix +:+ "/" +:+ name.
Proof.
  intros Hv Hd. pose proof (ValidPath_elems _ Hv Hd) as He.
  change (Join [embedPrefix; name]) with (Clean (embedPrefix +:+ "/" +:+ name)).
  apply Clean_valid. rewrite splitSlash_app. rewrite forallb_app.
  by rewrite He.
Qed.

End PathFacts.

(* ===================================================================== *)
(** * What one run of the handler does                                    *)
(* ===================================================================== *)

Module HandlerFacts.
Import GoStrings filepath fs http static Behaviour HeaderFacts.

#[local] Arguments Clean : simpl never.
#[local] Arguments Join : simpl never.
#[local] Arguments TrimPrefix : simpl never.

(** The run of [fileHandler2], path by path: no handle (204), a handle
    whose [Stat] fails (403), a handle that cannot seek (the call
    [err.Error()] on the nil [err] panics), and a served file.  The deferred
    [Close] is the last event whenever there is a handle. *)
Lemma serve_fileHandler2 env fsys dir h0 r :
  serve (fileHandler2 env fsys dir) h0 r =
  match resolve fsys dir r with
  | inr e =>
      ({| resp := http.Error (fs.Error e) StatusNoContent
                    (newResponse (rootHeader h0 r));
          trace := attempts fsys dir r |}, Returned)
  | inl f =>
      let h := headerAtOpen fsys dir h0 r in
      let t := attempts fsys dir r ++ [EvClose f] in
      match Stat f with
      | inr e =>
          ({| resp := http.Error (fs.Error e) StatusForbidden (newResponse h);
              trace := t |}, Returned)
      | inl i =>
          match asReadSeeker f with
          | None => ({| resp := newResponse h; trace := t |},
                     Panicked nilDereference)
          | Some content =>
              ({| resp := ServeContent env r (lookupName dir r) (ModTime i)
                            content (newResponse (Set_ h "ETag" (etagOf env i)));
                  trace := t |}, Returned)
          end
      end
  end.
Proof.
  unfold resolve, attempts, headerAtOpen, rootHeader, firstPath, lookupName,
    fallbackPath, requested, etagOf.
  unfold serve, ServeHTTP, fileHandler2.
  destruct (String.eqb (Clean (TrimPrefix (URL_Path r) "/")) ".");
    cbn; unfold doOpen, bind, emit, ret, defer; cbn;
    repeat (match goal with
            | |- context [Open ?fs ?p] => destruct (Open fs p) as [?f|?e]; cbn
            | |- context [IsNotExist ?e] => destruct (IsNotExist e); cbn
            | |- context [Stat ?f] => destruct (Stat f) as [?i|?e]; cbn
            | |- context [asReadSeeker ?f] => destruct (asReadSeeker f); cbn
            end);
    reflexivity.
Qed.

(** The middleware runs the inner handler on a writer whose map has the
    Cache-Control value appended. *)
Lemma serve_mwSetCacheControl (next : Handler) h0 r :
  serve (mwSetCacheControl next) h0 r =
  serve next (Add h0 "Cache-Control" "public, max-age=3600") r.
Proof.
  unfold serve, mwSetCacheControl, ServeHTTP, bind, onWriter.
  cbn [resp trace newResponse setHeader header wroteHeader body refused].
  unfold newResponse.
  destruct (next r _) as [s [[]| |msg]]; reflexivity.
Qed.

(** Body and status of the response, by the way the request resolves. *)
Lemma response_fileHandler2_observed env fsys dir h0 r :
  let w := response (fileHandler2 env fsys dir) h0 r in
  (body w, status w) =
  match resolve fsys dir r with
  | inr _ => ("", Some StatusNoContent)
  | inl f =>
      match Stat f with
      | inr e => (fs.Error e +:+ newline, Some StatusForbidden)
      | inl _ =>
          match asReadSeeker f with
          | None => ("", None)
          | Some content => (content, Some StatusOK)
          end
      end
  end.
Proof.
  cbn zeta. unfold response. rewrite serve_fileHandler2.
  destruct (resolve fsys dir r) as [f|e];
    [destruct (Stat f) as [i|e]; [destruct (asReadSeeker f) as [c|]|]|];
    cbn [fst resp];
    try match goal with |- context [http.Error ?m ?c ?w] =>
      destruct (Error_run m c w eq_refl) as (_ & Hw & Hb & _) end;
    try match goal with |- context [ServeContent ?e ?r ?n ?m ?c ?w] =>
      destruct (ServeContent_run e r n m c w eq_refl) as (Hw & Hb & _ & _ & _) end;
    unfold status; try rewrite Hw; try rewrite Hb; reflexivity.
Qed.

Lemma untouched_keys k :
  k = "Etag" \/ k = "Cache-Control" ->
  k ∉ ["Last-Modified"; "Content-Type"; "Accept-Ranges"; "Content-Length"].
Proof.
  intros Hk Hin.
  repeat (apply elem_of_cons in Hin as [Hin|Hin]; [destruct Hk; congruence|]).
  by apply elem_of_nil in Hin.
Qed.

(** The validator that goes out with a served file. *)
Lemma etag_sent env fsys dir h0 r f i content :
  resolve fsys dir r = inl f -> Stat f = inl i ->
  asReadSeeker f = Some content ->
  sent (response (fileHandler2 env fsys dir) h0 r) "ETag" = Some [etagOf env i].
Proof.
  intros Hr Hs Hc. unfold response. rewrite serve_fileHandler2, Hr, Hs, Hc.
  cbn [fst resp].
  match goal with |- context [ServeContent ?e ?r ?n ?m ?c ?w] =>
    destruct (ServeContent_run e r n m c w eq_refl) as (Hw & _ & _ & _ & Hk) end.
  unfold sent. rewrite Hw. cbn [fmap option_fmap option_map snd].
  unfold Values. canonical_keys. rewrite Hk by (apply untouched_keys; auto).
  cbn [newResponse header]. header_lookup. done.
Qed.

(** [fileHandler2] leaves Cache-Control as it found it, in the map and in
    what it sends. *)
Lemma fileHandler2_keeps_cache_control env fsys dir h0 r :
  let w := response (fileHandler2 env fsys dir) h0 r in
  Values (header w) "Cache-Control" = Values h0 "Cache-Control" /\
  sent w "Cache-Control" = (fun _ => Values h0 "Cache-Control") <$> status w.
Proof.
  unfold response. rewrite serve_fileHandler2.
  unfold headerAtOpen, rootHeader, sent, status.
  destruct (resolve fsys dir r) as [f|e];
    [destruct (Stat f) as [i|e]; [destruct (asReadSeeker f) as [c|]|]|];
    cbn [fst resp];
    try match goal with |- context [http.Error ?m ?c ?w] =>
      destruct (Error_run m c w eq_refl) as (Hh & Hw & _ & _);
      rewrite Hw, Hh end;
    try match goal with |- context [ServeContent ?e ?r ?n ?m ?c ?w] =>
      destruct (ServeContent_run e r n m c w eq_refl) as (Hw & _ & _ & _ & Hk);
      rewrite Hw;
      specialize (Hk "Cache-Control" (untouched_keys _ (or_intror eq_refl))) end;
    cbn [fmap option_fmap option_map fst snd newResponse header wroteHeader];
    unfold Values; canonical_keys; rewrite ?Hk; cbn [newResponse header];
    destruct (String.eqb (requested r) ".");
    destruct (Open fsys (firstPath dir r));
    header_lookup; done.
Qed.

(** With a handle, the deferred [Close] is the only close. *)
Lemma closed_attempts fsys dir r f :
  resolve fsys dir r = inl f ->
  closed (attempts fsys dir r ++ [EvClose f]) = [f].
Proof.
  intros Hr. unfold closed. rewrite omap_app.
  unfold resolve in Hr. unfold attempts.
  destruct (Open fsys (firstPath dir r)); [done|].
  destruct (IsNotExist _); [|done].
  destruct (Open fsys (fallbackPath dir)); done.
Qed.

Lemma embed_validating files : validating (embed.FS files).
Proof.
  intros name f. cbn. unfold embed.lookup.
  destruct (ValidPath name); [done|]. cbn. discriminate.
Qed.

Lemma DirFS_validating osOpen dir : validating (os.DirFS osOpen dir).
Proof.
  intros name f. cbn. destruct (ValidPath name); [done|]. cbn. discriminate.
Qed.

(** Over a validating source every handle is opened under a valid name, and
    a 200 response carries the content behind such a handle. *)
Lemma opened_under_valid_names env fsys dir h0 r :
  validating fsys ->
  let H := fileHandler2 env fsys dir in
  Forall (fun name => ValidPath name = true) (openedAs (events H h0 r)) /\
  (status (response H h0 r) <> Some StatusOK \/
   exists name f,
     EvOpen name (inl f) ∈ events H h0 r /\ ValidPath name = true /\
     asReadSeeker f = Some (body (response H h0 r))).
Proof.
  intros Hv. cbn zeta. unfold events, response. rewrite serve_fileHandler2.
  unfold resolve, attempts.
  destruct (Open fsys (firstPath dir r)) as [f|e] eqn:H1;
    [|destruct (IsNotExist e);
      [destruct (Open fsys (fallbackPath dir)) as [f|e'] eqn:H2|]].
  all: try (destruct (Stat f) as [i|es];
            [destruct (asReadSeeker f) as [c|] eqn:Hc|]).
  all: cbn [fst resp trace].
  all: try match goal with |- context [http.Error ?m ?c ?w] =>
      destruct (Error_run m c w eq_refl) as (_ & Hw & _ & _) end.
  all: try match goal with |- context [ServeContent ?e ?r ?n ?m ?c ?w] =>
      destruct (ServeContent_run e r n m c w eq_refl) as (Hw & Hb & _ & _ & _) end.
  all: unfold status; try rewrite Hw;
    cbn [openedAs omap fmap option_fmap option_map fst app].
  all: split; [repeat constructor; eauto|].
  all: try (left; cbn; discriminate).
  all: right; rewrite Hb;
    first [ exists (firstPath dir r), f; split; [set_solver|]; split; [|exact Hc];
            by apply (Hv _ f)
          | exists (fallbackPath dir), f; split; [set_solver|]; split; [|exact Hc];
            by apply (Hv _ f) ].
Qed.

(** The layout with only the fallback document: the bundle under [build]
    and the directory [/ui] hold the same files with the same contents. *)
Lemma shell_layouts_same_files p data :
  Sample.shell !! ("build/" +:+ p) = Some (embed.regular data) <->
  Sample.shellDisk !! ("/ui/" +:+ p) = Some data.
Proof.
  destruct (decide (p = "index.html")) as [->|Hne].
  - vm_compute. split; intros [= <-]; reflexivity.
  - change ("build/" +:+ p)
      with (String "b" (String "u" (String "i" (String "l" (String "d"
             (String "/" p)))))).
    change ("/ui/" +:+ p)
      with (String "/" (String "u" (String "i" (String "/" p)))).
    unfold Sample.shell, Sample.shellDisk.
    rewrite lookup_insert_ne by discriminate.
    rewrite !lookup_insert_ne by (intros [= <-]; done).
    rewrite !lookup_empty. split; discriminate.
Qed.

End HandlerFacts.

(* ===================================================================== *)
(** * The properties of the specification                                 *)
(* ===================================================================== *)

Import GoStrings filepath fs http static Behaviour.
Import HeaderFacts PathFacts HandlerFacts.

(** C1.  The specification has a handle that cannot seek answered with
    status 500.  The handler does not get there: in that branch [err] is
    the nil error left by the successful [Stat], and [err.Error()] panics
    before [http.Error] is called.  Here the bundle has a directory
    [build/static]; a directory opened from an [embed.FS] has no [Seek].
    The request for [/static] opens it, [Stat] succeeds, the handler
    panics, and nothing is sent: no status, no body. *)
Theorem nonseekable_directory_panics :
  let H := NewAssetHandler Sample.env Sample.sources "" in
  let f := embed.opened "build/static" embed.directory in
  resolve (embed.FS Sample.bundle) embedPrefix (get "/static") = inl f /\
  statText (Stat f) = None /\
  asReadSeeker f = None /\
  outcome H ∅ (get "/static") = Panicked nilDereference /\
  status (response H ∅ (get "/static")) = None /\
  body (response H ∅ (get "/static")) = "".
Proof. vm_compute. repeat split. Qed.

(** C2.  When the first lookup of a request and the lookup of the fallback
    document both fail because the entry does not exist, the handler
    returns with status 204 and an empty body. *)
Theorem absent_bundle_no_content env fsys dir h0 r e1 e2 :
  Open fsys (firstPath dir r) = inr e1 -> IsNotExist e1 = true ->
  Open fsys (fallbackPath dir) = inr e2 -> IsNotExist e2 = true ->
  let w := response (fileHandler2 env fsys dir) h0 r in
  status w = Some StatusNoContent /\ body w = "" /\
  outcome (fileHandler2 env fsys dir) h0 r = Returned.
Proof.
  intros H1 N1 H2 N2. unfold response, outcome.
  rewrite serve_fileHandler2. unfold resolve. rewrite H1, N1, H2.
  cbn [fst snd resp].
  destruct (Error_run (fs.Error e2) StatusNoContent
              (newResponse (rootHeader h0 r)) eq_refl) as (Hh & Hw & Hb & Hr).
  unfold status. rewrite Hw, Hb. done.
Qed.

(** An empty bundle, asked for [/app.js]. *)
Lemma absent_bundle_no_content_witness :
  let fsys := embed.FS ∅ in
  let r := get "/app.js" in
  let e1 := PathError "open" "build/app.js" ErrNotExist in
  let e2 := PathError "open" "build/index.html" ErrNotExist in
  (Open fsys (firstPath embedPrefix r) = inr e1 /\ IsNotExist e1 = true /\
   Open fsys (fallbackPath embedPrefix) = inr e2 /\ IsNotExist e2 = true) /\
  status (response (fileHandler2 Sample.env fsys embedPrefix) ∅ r)
    = Some StatusNoContent /\
  body (response (fileHandler2 Sample.env fsys embedPrefix) ∅ r) = "" /\
  outcome (fileHandler2 Sample.env fsys embedPrefix) ∅ r = Returned.
Proof.
  cbn zeta. split; [repeat split|].
  apply (absent_bundle_no_content Sample.env (embed.FS ∅) embedPrefix ∅
           (get "/app.js")
           (PathError "open" "build/app.js" ErrNotExist)
           (PathError "open" "build/index.html" ErrNotExist));
    reflexivity.
Defined.

(** C3.  The specification has the root path answered with the fallback
    document of the asset source.  For the root the handler sets [name] to
    [Join(dir, defaultFile)] and then opens [Join(dir, name)]: with the
    prefix [build] the first lookup is [build/build/index.html].  In a
    bundle that has that file besides [build/index.html] (content ["A"]),
    the request for [/] is answered with the nested file (content ["B"]),
    not with the fallback document. *)
Theorem root_serves_nested_index :
  let H := NewAssetHandler Sample.env Sample.nestedSources "" in
  Open (embed.FS Sample.nested) (fallbackPath embedPrefix) =
    inl (embed.opened "build/index.html" (embed.regular "A")) /\
  lookedUp (events H ∅ (get "/")) = ["build/build/index.html"] /\
  status (response H ∅ (get "/")) = Some StatusOK /\
  body (response H ∅ (get "/")) = "B".
Proof. vm_compute. repeat split. Qed.

(** C4.  When the first lookup fails because the entry does not exist and
    the fallback document is there (it opens, [Stat] succeeds and it can be
    read and sought), the response is 200 with the content of the fallback
    document as its body and with Content-Type exactly [text/html]: the
    type is in the header map before [ServeContent] runs, so nothing is
    inferred from the extension of the requested name. *)
Theorem unknown_path_serves_fallback env fsys dir h0 r e f i content :
  Open fsys (firstPath dir r) = inr e -> IsNotExist e = true ->
  Open fsys (fallbackPath dir) = inl f ->
  Stat f = inl i -> asReadSeeker f = Some content ->
  let w := response (fileHandler2 env fsys dir) h0 r in
  status w = Some StatusOK /\ body w = content /\
  sent w "Content-Type" = Some ["text/html"] /\
  outcome (fileHandler2 env fsys dir) h0 r = Returned.
Proof.
  intros H1 N1 H2 Hs Hc. unfold response, outcome.
  rewrite serve_fileHandler2. unfold resolve, headerAtOpen.
  rewrite H1, N1, H2, Hs, Hc. cbn [fst snd resp].
  match goal with |- context [ServeContent ?e ?r ?n ?m ?c ?w] =>
    destruct (ServeContent_run e r n m c w eq_refl) as (Hw & Hb & _ & Hct & _)
  end.
  unfold status, sent. rewrite Hw, Hb. cbn [fmap option_fmap option_map fst snd].
  repeat split; try done.
  unfold Values. canonical_keys. erewrite Hct; [done|].
  cbn [newResponse header]. header_lookup. done.
Qed.

(** The sample bundle, asked for a script it does not have: the sample
    table of types would give a script [text/javascript]. *)
Lemma unknown_path_serves_fallback_witness :
  let fsys := embed.FS Sample.bundle in
  let r := get "/nonexistent/page.js" in
  let e := PathError "open" "build/nonexistent/page.js" ErrNotExist in
  let f := embed.opened "build/index.html" (embed.regular "A") in
  let i := {| Name := "index.html"; Size := 1; ModTime := zeroTime;
              IsDir := false |} in
  (Open fsys (firstPath embedPrefix r) = inr e /\ IsNotExist e = true /\
   Open fsys (fallbackPath embedPrefix) = inl f /\
   Stat f = inl i /\ asReadSeeker f = Some "A") /\
  let w := response (fileHandler2 Sample.env fsys embedPrefix) ∅ r in
  status w = Some StatusOK /\ body w = "A" /\
  sent w "Content-Type" = Some ["text/html"] /\
  outcome (fileHandler2 Sample.env fsys embedPrefix) ∅ r = Returned.
Proof.
  cbn zeta. split; [repeat split|].
  apply (unknown_path_serves_fallback Sample.env (embed.FS Sample.bundle)
           embedPrefix ∅ (get "/nonexistent/page.js")
           (PathError "open" "build/nonexistent/page.js" ErrNotExist)
           (embed.opened "build/index.html" (embed.regular "A"))
           {| Name := "index.html"; Size := 1; ModTime := zeroTime;
              IsDir := false |}
           "A");
    reflexivity.
Defined.

(** C5.  When a request resolves to a handle whose [Stat] succeeds and
    that can seek, the ETag header that is sent (fixed when the status line
    is written, before any byte of the body) is exactly
    [W/"<name>-<size>-<commit>"], with name and size from [Stat] and the
    commit of the build.  So two requests that resolve to files of the same
    name and size get the same ETag under one build. *)
Theorem etag_of_resolved_file
    env fsys dir h0 r f i content fsys' dir' h0' r' f' i' content' :
  resolve fsys dir r = inl f -> Stat f = inl i ->
  asReadSeeker f = Some content ->
  resolve fsys' dir' r' = inl f' -> Stat f' = inl i' ->
  asReadSeeker f' = Some content' ->
  let w := response (fileHandler2 env fsys dir) h0 r in
  let w' := response (fileHandler2 env fsys' dir') h0' r' in
  sent w "ETag" =
    Some ["W/" +:+ dquote +:+ Name i +:+ "-" +:+ formatInt (Size i) +:+ "-"
               +:+ Commit env +:+ dquote] /\
  (Name i = Name i' -> Size i = Size i' -> sent w "ETag" = sent w' "ETag").
Proof.
  intros Hr Hs Hc Hr' Hs' Hc'. cbn zeta.
  rewrite (etag_sent _ _ _ _ _ _ _ _ Hr Hs Hc).
  rewrite (etag_sent _ _ _ _ _ _ _ _ Hr' Hs' Hc').
  split; [reflexivity|]. intros Hn Hz. unfold etagOf. by rewrite Hn, Hz.
Qed.

(** The script of the sample layout, from the bundle and from the
    directory. *)
Lemma etag_of_resolved_file_witness :
  let fsys := embed.FS Sample.bundle in
  let fsys' := os.DirFS (os.diskOpen Sample.disk Sample.mtime) "/ui" in
  let r := get "/app.js" in
  let f := embed.opened "build/app.js" (embed.regular "BB") in
  let i := {| Name := "app.js"; Size := 2; ModTime := zeroTime;
              IsDir := false |} in
  let i' := {| Name := "app.js"; Size := 2; ModTime := Sample.mtime;
               IsDir := false |} in
  let f' := {| Stat := inl i'; asReadSeeker := Some "BB" |} in
  (resolve fsys embedPrefix r = inl f /\ Stat f = inl i /\
   asReadSeeker f = Some "BB" /\
   resolve fsys' "" r = inl f' /\ Stat f' = inl i' /\
   asReadSeeker f' = Some "BB") /\
  let w := response (fileHandler2 Sample.env fsys embedPrefix) ∅ r in
  let w' := response (fileHandler2 Sample.env fsys' "") ∅ r in
  sent w "ETag" =
    Some ["W/" +:+ dquote +:+ "app.js" +:+ "-" +:+ formatInt 2 +:+ "-"
               +:+ "abc123" +:+ dquote] /\
  (Name i = Name i' -> Size i = Size i' -> sent w "ETag" = sent w' "ETag").
Proof.
  cbn zeta. split; [repeat split|].
  apply (etag_of_resolved_file
           Sample.env (embed.FS Sample.bundle) embedPrefix ∅ (get "/app.js")
           (embed.opened "build/app.js" (embed.regular "BB"))
           {| Name := "app.js"; Size := 2; ModTime := zeroTime; IsDir := false |}
           "BB"
           (os.DirFS (os.diskOpen Sample.disk Sample.mtime) "/ui") "" ∅
           (get "/app.js")
           {| Stat := inl {| Name := "app.js"; Size := 2;
                             ModTime := Sample.mtime; IsDir := false |};
              asReadSeeker := Some "BB" |}
           {| Name := "app.js"; Size := 2; ModTime := Sample.mtime;
              IsDir := false |}
           "BB");
    reflexivity.
Defined.

(** C6, as the specification states it, fails: cleaning a relative path
    keeps its leading [..] elements, so they reach the lookup.  For
    [/../../secret] the bundle is asked for [../secret] and the directory
    for [../../secret]. *)
Lemma traversal_reaches_lookup :
  lookedUp (events (NewAssetHandler Sample.env Sample.sources "") ∅
                   (get "/../../secret"))
    = ["../secret"; "build/index.html"] /\
  traversalFree "../secret" = false /\
  lookedUp (events (NewAssetHandler Sample.env Sample.sources "/ui") ∅
                   (get "/../../secret"))
    = ["../../secret"] /\
  traversalFree "../../secret" = false.
Proof. vm_compute. repeat split. Qed.

(** C6, amended.  The asset source refuses what cleaning lets through:
    [embed.FS] and [os.DirFS] open nothing under a name that is not a valid
    path ([fs.ValidPath]: unrooted, no empty, [.] or [..] element).  So in
    both modes, for every request, every handle is opened under a valid
    name, a name inside the asset source, and the body of a 200 response is
    the content behind such a handle. *)
Theorem opened_names_are_valid env src assetsPath h0 r :
  let H := NewAssetHandler env src assetsPath in
  Forall (fun name => ValidPath name = true) (openedAs (events H h0 r)) /\
  (status (response H h0 r) <> Some StatusOK \/
   exists name f,
     EvOpen name (inl f) ∈ events H h0 r /\ ValidPath name = true /\
     asReadSeeker f = Some (body (response H h0 r))).
Proof.
  cbn zeta. unfold NewAssetHandler, events, response.
  rewrite serve_mwSetCacheControl.
  destruct (negb (String.eqb assetsPath ""));
    apply opened_under_valid_names;
    [apply DirFS_validating | apply embed_validating].
Qed.

(** C7, as the specification states it, fails: a bundle and a directory
    that hold the same files with the same contents, the fallback document
    and nothing else, asked for [/../x].  The bundle is asked for [x],
    reports that it does not exist, and the fallback document is served;
    the directory is asked for [../x], refuses the name as invalid, and the
    response is an empty 204. *)
Lemma modes_differ_on_traversal :
  (forall p data,
      Sample.shell !! ("build/" +:+ p) = Some (embed.regular data) <->
      Sample.shellDisk !! ("/ui/" +:+ p) = Some data) /\
  body (response (NewAssetHandler Sample.env Sample.shellSources "") ∅
                 (get "/../x")) = "A" /\
  body (response (NewAssetHandler Sample.env Sample.shellSources "/ui") ∅
                 (get "/../x")) = "".
Proof.
  split; [exact shell_layouts_same_files|]. vm_compute. by split.
Qed.

(** Equal files do not make the two modes agree on every valid name
    either.  [/index.html/x] names an entry below a regular file: the
    bundle reports that it does not exist and the fallback document is
    served; the host refuses it with ENOTDIR, which is not a does-not-exist
    error, so there is no fallback and the response is an empty 204.  The
    two sources do not answer [Open] alike at that name. *)
Lemma modes_differ_below_a_file :
  let r := get "/index.html/x" in
  let embedded := response (NewAssetHandler Sample.env Sample.shellSources "") ∅ r in
  let external := response (NewAssetHandler Sample.env Sample.shellSources "/ui") ∅ r in
  ValidPath (requested r) = true /\
  ~ equivalentAt Sample.shellSources "/ui" (requested r) /\
  (body embedded, status embedded) = ("A", Some StatusOK) /\
  (body external, status external) = ("", Some StatusNoContent).
Proof.
  cbn zeta. split; [reflexivity|]. split; [|by vm_compute].
  vm_compute. discriminate.
Qed.

(** C7, amended.  For a request whose cleaned path is a valid name other
    than the root, if the bundle (under [build]) and the directory answer
    [Open] alike at that name and at the name of the fallback document
    (both give a handle, with the same content and the same outcome of
    [Stat]; or both fail, and the error is a does-not-exist error in both
    or in neither), the handler over the bundle and the handler over the
    directory send the same body with the same status. *)
Theorem modes_agree_on_valid_names env src assetsPath h0 r :
  assetsPath <> "" ->
  ValidPath (requested r) = true -> requested r <> "." ->
  equivalentAt src assetsPath (requested r) ->
  equivalentAt src assetsPath defaultFile ->
  let embedded := response (NewAssetHandler env src "") h0 r in
  let external := response (NewAssetHandler env src assetsPath) h0 r in
  body embedded = body external /\ status embedded = status external.
Proof.
  intros Hp Hv Hd Hreq Hfb. cbn zeta.
  apply String.eqb_neq in Hp.
  assert (Hobs : forall w w' : ResponseWriter,
             (body w, status w) = (body w', status w') ->
             body w = body w' /\ status w = status w')
    by (intros; by simplify_eq).
  apply Hobs. clear Hobs.
  unfold NewAssetHandler, response. rewrite Hp. cbn [String.eqb negb].
  rewrite !serve_mwSetCacheControl.
  fold (response (fileHandler2 env (embed.FS (assets src)) embedPrefix)
                 (Add h0 "Cache-Control" "public, max-age=3600") r).
  fold (response (fileHandler2 env (os.DirFS (osOpen src) assetsPath) "")
                 (Add h0 "Cache-Control" "public, max-age=3600") r).
  rewrite !response_fileHandler2_observed.
  unfold resolve, firstPath, lookupName, fallbackPath.
  apply String.eqb_neq in Hd. rewrite Hd.
  rewrite Join_prefix, Join_root by (done || by apply String.eqb_neq).
  change (Join [embedPrefix; defaultFile])
    with (embedPrefix +:+ "/" +:+ defaultFile).
  change (Join [""; defaultFile]) with defaultFile.
  unfold equivalentAt, sameEntry in Hreq, Hfb.
  destruct (Open (embed.FS (assets src)) (embedPrefix +:+ "/" +:+ requested r))
    as [f|e];
    destruct (Open (os.DirFS (osOpen src) assetsPath) (requested r)) as [g|e'];
    try done.
  - destruct Hreq as [Hc Hs]. rewrite Hc.
    destruct (Stat f), (Stat g); cbn in Hs; try done.
    by injection Hs as ->.
  - rewrite Hreq. destruct (IsNotExist e'); [|done].
    destruct (Open (embed.FS (assets src)) (embedPrefix +:+ "/" +:+ defaultFile))
      as [f|e2];
      destruct (Open (os.DirFS (osOpen src) assetsPath) defaultFile) as [g|e2'];
      try done.
    destruct Hfb as [Hc Hs]. rewrite Hc.
    destruct (Stat f), (Stat g); cbn in Hs; try done.
    by injection Hs as ->.
Qed.

(** The script of the sample layout. *)
Lemma modes_agree_on_valid_names_witness :
  let r := get "/app.js" in
  ("/ui" <> "" /\ ValidPath (requested r) = true /\ requested r <> "." /\
   equivalentAt Sample.sources "/ui" (requested r) /\
   equivalentAt Sample.sources "/ui" defaultFile) /\
  let embedded := response (NewAssetHandler Sample.env Sample.sources "") ∅ r in
  let external := response (NewAssetHandler Sample.env Sample.sources "/ui") ∅ r in
  body embedded = body external /\ status embedded = status external.
Proof.
  cbn zeta.
  assert (H1 : "/ui" <> "") by discriminate.
  assert (H2 : ValidPath (requested (get "/app.js")) = true) by reflexivity.
  assert (H3 : requested (get "/app.js") <> ".") by (vm_compute; discriminate).
  assert (H4 : equivalentAt Sample.sources "/ui" (requested (get "/app.js")))
    by (vm_compute; split; reflexivity).
  assert (H5 : equivalentAt Sample.sources "/ui" defaultFile)
    by (vm_compute; split; reflexivity).
  split; [repeat split; assumption|].
  exact (modes_agree_on_valid_names Sample.env Sample.sources "/ui" ∅
           (get "/app.js") H1 H2 H3 H4 H5).
Defined.

(** C8.  The handler of [NewAssetHandler] appends
    [Cache-Control: public, max-age=3600] to the header map and only then
    runs the inner handler, whatever that handler is; and for every request,
    in both modes and on every path of [fileHandler2] (200, 204, 403, panic),
    the value is still in the map at the end and is among the headers sent
    whenever headers are sent. *)
Theorem cache_control_always_added env src assetsPath h0 r :
  let H := NewAssetHandler env src assetsPath in
  let values := Values h0 "Cache-Control" ++ ["public, max-age=3600"] in
  (forall next : Handler,
      serve (mwSetCacheControl next) h0 r =
      serve next (Add h0 "Cache-Control" "public, max-age=3600") r) /\
  Values (header (response H h0 r)) "Cache-Control" = values /\
  sent (response H h0 r) "Cache-Control" =
    (fun _ => values) <$> status (response H h0 r).
Proof.
  cbn zeta. split; [intros next; apply serve_mwSetCacheControl|].
  unfold NewAssetHandler, response.
  destruct (negb (String.eqb assetsPath ""));
    rewrite serve_mwSetCacheControl;
    match goal with |- context [serve (fileHandler2 ?e ?f ?d) ?h ?r] =>
      destruct (fileHandler2_keeps_cache_control e f d h r) as [Hv Hs] end;
    unfold response in Hv, Hs; rewrite Hv, Hs;
    unfold Values at 1 3; canonical_keys; header_lookup; done.
Qed.

(** C9.  For every request, no handle is open when the handler is done:
    the handles closed are the handles opened, and that is the one handle
    the request resolved to, if any.  The deferred [Close] runs after a
    served file, after a failed [Stat], and when the handler panics on a
    handle that cannot seek. *)
Theorem handle_closed_on_every_exit env fsys dir h0 r :
  let t := events (fileHandler2 env fsys dir) h0 r in
  leaked t = [] /\
  closed t = Behaviour.opened t /\
  Behaviour.opened t =
    match resolve fsys dir r with inl f => [f] | inr _ => [] end.
Proof.
  unfold events. rewrite serve_fileHandler2.
  unfold resolve, attempts.
  destruct (Open fsys (firstPath dir r)) as [f|e] eqn:H1.
  - destruct (Stat f); [destruct (asReadSeeker f)|]; cbn;
      rewrite decide_True by done; done.
  - destruct (IsNotExist e); [|done].
    destruct (Open fsys (fallbackPath dir)) as [f|e'] eqn:H2; [|done].
    destruct (Stat f); [destruct (asReadSeeker f)|]; cbn;
      rewrite decide_True by done; done.
Qed.

(** C10, as stated, fails in one point: the response does not carry the
    text of the error.  The handler hands it to [http.Error] with status
    204, and a response with that status has no body: the writer refuses
    the bytes.  Here the directory refuses the name [../../secret] as
    invalid. *)
Lemma error_text_not_sent :
  let fsys := os.DirFS (os.diskOpen Sample.disk Sample.mtime) "/ui" in
  let e := PathError "open" "../../secret" ErrInvalid in
  let w := response (fileHandler2 Sample.env fsys "") ∅ (get "/../../secret") in
  Open fsys (firstPath "" (get "/../../secret")) = inr e /\
  IsNotExist e = false /\
  fs.Error e = "open ../../secret: invalid argument" /\
  status w = Some StatusNoContent /\
  body w = "".
Proof. vm_compute. repeat split. Qed.

(** C10, amended.  When the first lookup fails with an error other than
    does-not-exist, the handler makes no second lookup, whether the fallback
    document is there or not, and responds with status 204.  The text of the
    error is handed to the writer and refused by it: the body is empty. *)
Theorem other_open_error_no_fallback env fsys dir h0 r e :
  Open fsys (firstPath dir r) = inr e -> IsNotExist e = false ->
  let w := response (fileHandler2 env fsys dir) h0 r in
  status w = Some StatusNoContent /\
  refused w = fs.Error e +:+ newline /\
  body w = "" /\
  events (fileHandler2 env fsys dir) h0 r = [EvOpen (firstPath dir r) (inr e)].
Proof.
  intros H1 N1. unfold response, events.
  rewrite serve_fileHandler2. unfold resolve, attempts. rewrite H1, N1.
  cbn [fst snd resp trace].
  destruct (Error_run (fs.Error e) StatusNoContent
              (newResponse (rootHeader h0 r)) eq_refl) as (Hh & Hw & Hb & Hr).
  unfold status. rewrite Hw, Hb, Hr. done.
Qed.

(** The sample directory, which has the fallback document, asked for a
    name it refuses. *)
Lemma other_open_error_no_fallback_witness :
  let fsys := os.DirFS (os.diskOpen Sample.disk Sample.mtime) "/ui" in
  let r := get "/../../secret" in
  let e := PathError "open" "../../secret" ErrInvalid in
  (Open fsys (firstPath "" r) = inr e /\ IsNotExist e = false) /\
  is_Some (Sample.disk !! "/ui/index.html") /\
  let w := response (fileHandler2 Sample.env fsys "") ∅ r in
  status w = Some StatusNoContent /\
  refused w = "open ../../secret: invalid argument" +:+ newline /\
  body w = "" /\
  events (fileHandler2 Sample.env fsys "") ∅ r = [EvOpen "../../secret" (inr e)].
Proof.
  cbn zeta. split; [repeat split|]. split; [by eexists|].
  apply (other_open_error_no_fallback Sample.env
           (os.DirFS (os.diskOpen Sample.disk Sample.mtime) "/ui")
           "" ∅ (get "/../../secret")
           (PathError "open" "../../secret" ErrInvalid));
    reflexivity.
Defined.

(* ===================================================================== *)
(** * Further properties of the handler                                   *)
(* ===================================================================== *)

(** X1.  Whenever a request resolves to a handle whose [Stat] succeeds and
    that cannot seek, the handler panics on the nil [err]: nothing is sent,
    and the deferred [Close] has run. *)
Theorem nonseekable_handle_panics env fsys dir h0 r f i :
  resolve fsys dir r = inl f -> Stat f = inl i -> asReadSeeker f = None ->
  let H := fileHandler2 env fsys dir in
  outcome H h0 r = Panicked nilDereference /\
  status (response H h0 r) = None /\
  body (response H h0 r) = "" /\
  closed (events H h0 r) = [f].
Proof.
  intros Hr Hs Hc. cbn zeta. unfold outcome, response, events.
  rewrite serve_fileHandler2, Hr, Hs, Hc. cbn [fst snd resp trace].
  repeat split. by apply closed_attempts.
Qed.

Lemma nonseekable_handle_panics_witness :
  let fsys := embed.FS Sample.bundle in
  let f := embed.opened "build/static" embed.directory in
  let i := {| Name := "static"; Size := 0; ModTime := zeroTime; IsDir := true |} in
  let H := fileHandler2 Sample.env fsys embedPrefix in
  (resolve fsys embedPrefix (get "/static") = inl f /\ Stat f = inl i /\
   asReadSeeker f = None) /\
  outcome H ∅ (get "/static") = Panicked nilDereference /\
  status (response H ∅ (get "/static")) = None /\
  body (response H ∅ (get "/static")) = "" /\
  closed (events H ∅ (get "/static")) = [f].
Proof.
  cbn zeta. split; [repeat split|].
  apply (nonseekable_handle_panics Sample.env (embed.FS Sample.bundle)
           embedPrefix ∅ (get "/static")
           (embed.opened "build/static" embed.directory)
           {| Name := "static"; Size := 0; ModTime := zeroTime; IsDir := true |});
    reflexivity.
Defined.

(** X2.  When the handle cannot report its metadata the response is 403
    with the text of the error as its body, and the handle is closed. *)
Theorem stat_failure_forbidden env fsys dir h0 r f e :
  resolve fsys dir r = inl f -> Stat f = inr e ->
  let H := fileHandler2 env fsys dir in
  status (response H h0 r) = Some StatusForbidden /\
  body (response H h0 r) = fs.Error e +:+ newline /\
  outcome H h0 r = Returned /\
  closed (events H h0 r) = [f].
Proof.
  intros Hr Hs. cbn zeta.
  pose proof (response_fileHandler2_observed env fsys dir h0 r) as Ho.
  cbn zeta in Ho. rewrite Hr, Hs in Ho. injection Ho as Hb Hst.
  unfold outcome, events. rewrite serve_fileHandler2, Hr, Hs.
  cbn [fst snd resp trace]. repeat split; try done.
  by apply closed_attempts.
Qed.

Lemma stat_failure_forbidden_witness :
  let f := {| Stat := inr (bare EIO); asReadSeeker := Some "x" |} in
  let H := fileHandler2 Sample.env Sample.unreadable "" in
  (resolve Sample.unreadable "" (get "/app.js") = inl f /\
   Stat f = inr (bare EIO)) /\
  status (response H ∅ (get "/app.js")) = Some StatusForbidden /\
  body (response H ∅ (get "/app.js")) = "input/output error" +:+ newline /\
  outcome H ∅ (get "/app.js") = Returned /\
  closed (events H ∅ (get "/app.js")) = [f].
Proof.
  cbn zeta. split; [repeat split|].
  apply (stat_failure_forbidden Sample.env Sample.unreadable "" ∅
           (get "/app.js")
           {| Stat := inr (bare EIO); asReadSeeker := Some "x" |} (bare EIO));
    reflexivity.
Defined.

(** X3.  A request, not for the root, whose name opens to a regular file
    is answered 200 with the content of that file, with the Content-Type
    that [ServeContent] infers from the requested name when no earlier
    middleware has set one, after one lookup and with the handle closed. *)
Theorem existing_asset_served env fsys dir h0 r f i content :
  requested r <> "." -> h0 !! "Content-Type" = None ->
  Open fsys (firstPath dir r) = inl f -> Stat f = inl i ->
  asReadSeeker f = Some content ->
  let w := response (fileHandler2 env fsys dir) h0 r in
  status w = Some StatusOK /\ body w = content /\
  sent w "Content-Type" = Some [inferredType env (requested r) content] /\
  events (fileHandler2 env fsys dir) h0 r =
    [EvOpen (firstPath dir r) (inl f); EvClose f].
Proof.
  intros Hd Hct Ho Hs Hc. cbn zeta. apply String.eqb_neq in Hd.
  unfold response, events. rewrite serve_fileHandler2.
  unfold resolve, attempts, headerAtOpen, rootHeader, lookupName.
  rewrite Ho, Hs, Hc, Hd. cbn [fst resp trace].
  match goal with |- context [ServeContent ?e ?r ?n ?m ?c ?w] =>
    destruct (ServeContent_run e r n m c w eq_refl) as (Hw & Hb & _ & _ & _);
    pose proof (ServeContent_infers e r n m c w eq_refl) as Hi
  end.
  unfold status, sent. rewrite Hw, Hb.
  cbn [fmap option_fmap option_map fst snd].
  repeat split; try done.
  unfold Values. canonical_keys. rewrite Hi; [done|].
  cbn [newResponse header]. header_lookup. done.
Qed.

Lemma existing_asset_served_witness :
  let fsys := embed.FS Sample.bundle in
  let r := get "/app.js" in
  let f := embed.opened "build/app.js" (embed.regular "BB") in
  let i := {| Name := "app.js"; Size := 2; ModTime := zeroTime;
              IsDir := false |} in
  (requested r <> "." /\ (∅ : Header) !! "Content-Type" = None /\
   Open fsys (firstPath embedPrefix r) = inl f /\ Stat f = inl i /\
   asReadSeeker f = Some "BB") /\
  let w := response (fileHandler2 Sample.env fsys embedPrefix) ∅ r in
  status w = Some StatusOK /\ body w = "BB" /\
  sent w "Content-Type" = Some ["text/javascript; charset=utf-8"] /\
  events (fileHandler2 Sample.env fsys embedPrefix) ∅ r =
    [EvOpen "build/app.js" (inl f); EvClose f].
Proof.
  cbn zeta.
  assert (Hd : requested (get "/app.js") <> ".") by (vm_compute; discriminate).
  split; [repeat split; exact Hd|].
  apply (existing_asset_served Sample.env (embed.FS Sample.bundle) embedPrefix
           ∅ (get "/app.js")
           (embed.opened "build/app.js" (embed.regular "BB"))
           {| Name := "app.js"; Size := 2; ModTime := zeroTime; IsDir := false |}
           "BB" Hd);
    reflexivity.
Defined.

(** X4.  In external-directory mode the root path is looked up as
    [index.html], once, and when that is a regular file the response is 200
    with its content and Content-Type [text/html]. *)
Theorem root_served_from_directory env src assetsPath h0 f i content :
  assetsPath <> "" ->
  Open (os.DirFS (osOpen src) assetsPath) defaultFile = inl f ->
  Stat f = inl i -> asReadSeeker f = Some content ->
  let H := NewAssetHandler env src assetsPath in
  status (response H h0 (get "/")) = Some StatusOK /\
  body (response H h0 (get "/")) = content /\
  sent (response H h0 (get "/")) "Content-Type" = Some ["text/html"] /\
  lookedUp (events H h0 (get "/")) = [defaultFile].
Proof.
  intros Hp Ho Hs Hc. cbn zeta. apply String.eqb_neq in Hp.
  unfold NewAssetHandler, response, events. rewrite Hp. cbn [negb].
  rewrite serve_mwSetCacheControl, serve_fileHandler2.
  unfold resolve, attempts, headerAtOpen, rootHeader.
  change (firstPath "" (get "/")) with defaultFile.
  change (requested (get "/")) with ".".
  rewrite Ho, Hs, Hc. cbn [fst resp trace String.eqb Ascii.eqb Bool.eqb].
  match goal with |- context [ServeContent ?e ?r ?n ?m ?c ?w] =>
    destruct (ServeContent_run e r n m c w eq_refl) as (Hw & Hb & _ & Hct & _)
  end.
  unfold status, sent. rewrite Hw, Hb.
  cbn [fmap option_fmap option_map fst snd].
  repeat split; try done.
  unfold Values. canonical_keys. erewrite Hct; [done|].
  cbn [newResponse header]. header_lookup. done.
Qed.

Lemma root_served_from_directory_witness :
  let i := {| Name := "index.html"; Size := 1; ModTime := Sample.mtime;
              IsDir := false |} in
  let f := {| Stat := inl i; asReadSeeker := Some "A" |} in
  let H := NewAssetHandler Sample.env Sample.sources "/ui" in
  ("/ui" <> "" /\
   Open (os.DirFS (osOpen Sample.sources) "/ui") defaultFile = inl f /\
   Stat f = inl i /\ asReadSeeker f = Some "A") /\
  status (response H ∅ (get "/")) = Some StatusOK /\
  body (response H ∅ (get "/")) = "A" /\
  sent (response H ∅ (get "/")) "Content-Type" = Some ["text/html"] /\
  lookedUp (events H ∅ (get "/")) = [defaultFile].
Proof.
  cbn zeta.
  assert (Hp : "/ui" <> "") by discriminate.
  split; [repeat split; exact Hp|].
  apply (root_served_from_directory Sample.env Sample.sources "/ui" ∅
           {| Stat := inl {| Name := "index.html"; Size := 1;
                             ModTime := Sample.mtime; IsDir := false |};
              asReadSeeker := Some "A" |}
           {| Name := "index.html"; Size := 1; ModTime := Sample.mtime;
              IsDir := false |}
           "A" Hp);
    reflexivity.
Defined.

(** X5.  In embedded-bundle mode the root path is looked up as
    [build/build/index.html] first; when the bundle has no such entry, the
    fallback lookup of [build/index.html] follows, and when that is a
    regular file the response is 200 with its content and Content-Type
    [text/html]. *)
Theorem root_served_from_bundle env src h0 content :
  assets src !! "build/build/index.html" = None ->
  assets src !! "build/index.html" = Some (embed.regular content) ->
  let H := NewAssetHandler env src "" in
  status (response H h0 (get "/")) = Some StatusOK /\
  body (response H h0 (get "/")) = content /\
  sent (response H h0 (get "/")) "Content-Type" = Some ["text/html"] /\
  lookedUp (events H h0 (get "/")) =
    ["build/build/index.html"; "build/index.html"].
Proof.
  intros Hn Hi. cbn zeta.
  unfold NewAssetHandler, response, events. cbn [String.eqb negb].
  rewrite serve_mwSetCacheControl, serve_fileHandler2.
  unfold resolve, attempts, headerAtOpen, rootHeader.
  change (firstPath embedPrefix (get "/")) with "build/build/index.html".
  change (fallbackPath embedPrefix) with "build/index.html".
  change (requested (get "/")) with ".".
  assert (H1 : Open (embed.FS (assets src)) "build/build/index.html"
               = inr (PathError "open" "build/build/index.html" ErrNotExist)).
  { cbn [Open embed.FS]. unfold embed.lookup.
    change (ValidPath "build/build/index.html") with true.
    cbn [negb String.eqb Ascii.eqb Bool.eqb]. by rewrite Hn. }
  assert (H2 : Open (embed.FS (assets src)) "build/index.html"
               = inl (embed.opened "build/index.html" (embed.regular content))).
  { cbn [Open embed.FS]. unfold embed.lookup.
    change (ValidPath "build/index.html") with true.
    cbn [negb String.eqb Ascii.eqb Bool.eqb]. by rewrite Hi. }
  rewrite H1. cbn [IsNotExist underlyingError]. rewrite H2.
  cbn [embed.opened Stat asReadSeeker fst resp trace String.eqb Ascii.eqb
       Bool.eqb ModTime].
  match goal with |- context [ServeContent ?e ?r ?n ?m ?c ?w] =>
    destruct (ServeContent_run e r n m c w eq_refl) as (Hw & Hb & _ & Hct & _)
  end.
  unfold status, sent. rewrite Hw, Hb.
  cbn [fmap option_fmap option_map fst snd].
  repeat split; try done.
  unfold Values. canonical_keys. erewrite Hct; [done|].
  cbn [newResponse header]. header_lookup. done.
Qed.

Lemma root_served_from_bundle_witness :
  let H := NewAssetHandler Sample.env Sample.sources "" in
  (assets Sample.sources !! "build/build/index.html" = None /\
   assets Sample.sources !! "build/index.html" = Some (embed.regular "A")) /\
  status (response H ∅ (get "/")) = Some StatusOK /\
  body (response H ∅ (get "/")) = "A" /\
  sent (response H ∅ (get "/")) "Content-Type" = Some ["text/html"] /\
  lookedUp (events H ∅ (get "/")) =
    ["build/build/index.html"; "build/index.html"].
Proof.
  cbn zeta. split; [split; reflexivity|].
  apply (root_served_from_bundle Sample.env Sample.sources ∅ "A"); reflexivity.
Defined.

(* ===================================================================== *)
(** * More about strings and paths                                        *)
(* ===================================================================== *)

Module StringFacts.
Import GoStrings filepath fs static simpler PathFacts.

Lemma append_cons x a b : String x a +:+ b = String x (a +:+ b).
Proof. reflexivity. Qed.

Lemma append_assoc a b c : (a +:+ b) +:+ c = a +:+ (b +:+ c).
Proof.
  induction a as [|x a IH]; [done|]. rewrite !append_cons. by rewrite IH.
Qed.

Lemma length_append a b :
  String.length (a +:+ b) = (String.length a + String.length b)%nat.
Proof.
  induction a as [|x a IH]; [done|]. rewrite append_cons. cbn. by rewrite IH.
Qed.

Lemma append_inj_r a b s : a +:+ s = b +:+ s -> a = b.
Proof.
  revert b. induction a as [|c a IH]; intros [|c' b] H.
  - reflexivity.
  - apply (f_equal String.length) in H.
    rewrite !length_append in H. cbn in H. lia.
  - apply (f_equal String.length) in H.
    rewrite !length_append in H. cbn in H. lia.
  - rewrite !append_cons in H. injection H as -> H. f_equal. by apply IH.
Qed.

Lemma prefix_empty s : String.prefix "" s = true.
Proof. by destruct s. Qed.

Lemma substring_full s : String.substring 0 (String.length s) s = s.
Proof. induction s as [|c s IH]; [done|]. cbn. by rewrite IH. Qed.

(** [TrimPrefix] takes one leading separator off, if there is one. *)
Lemma TrimPrefix_cons c r :
  TrimPrefix (String c r) "/" = if Ascii.eqb c "/" then r else String c r.
Proof.
  unfold TrimPrefix.
  change (String.prefix "/" (String c r))
    with (if ascii_dec "/" c then String.prefix "" r else false).
  destruct (ascii_dec "/" c) as [<-|Hne].
  - rewrite prefix_empty. cbn [Ascii.eqb Bool.eqb].
    cbn [String.length Nat.sub String.substring].
    rewrite Nat.sub_0_r. apply substring_full.
  - destruct (Ascii.eqb_spec c "/"); [congruence|done].
Qed.

Lemma TrimPrefix_slash q : TrimPrefix ("/" +:+ q) "/" = q.
Proof. apply (TrimPrefix_cons "/" q). Qed.

Lemma prefix_slash_app s t :
  s <> "" -> String.prefix "/" (s +:+ t) = String.prefix "/" s.
Proof.
  destruct s as [|c r]; [done|]. intros _. rewrite append_cons.
  change (String.prefix "/" (String c ?x))
    with (if ascii_dec "/" c then String.prefix "" x else false).
  rewrite !prefix_empty. reflexivity.
Qed.

Lemma eqb_app_nonempty s t : s <> "" -> String.eqb (s +:+ t) "" = false.
Proof. destruct s; [done|]. reflexivity. Qed.

Lemma eqb_nonempty s : s <> "" -> String.eqb s "" = false.
Proof. destruct s; [done|]. reflexivity. Qed.

(** [Clean] drops a trailing separator. *)
Lemma Clean_trailing_slash s : s <> "" -> Clean (s +:+ "/") = Clean s.
Proof.
  intros Hs. unfold Clean.
  rewrite eqb_app_nonempty, (eqb_nonempty s), prefix_slash_app by done.
  change (s +:+ "/") with (s +:+ "/" +:+ "").
  rewrite splitSlash_app, fold_left_app. reflexivity.
Qed.

(** [Clean] drops an empty element or a dot between two separators. *)
Lemma Clean_inner_element a b e :
  e = "" \/ e = "." ->
  Clean (a +:+ "/" +:+ e +:+ "/" +:+ b) = Clean (a +:+ "/" +:+ b).
Proof.
  intros He. unfold Clean.
  assert (Hp : forall t u, String.prefix "/" (a +:+ "/" +:+ t)
                         = String.prefix "/" (a +:+ "/" +:+ u)).
  { intros t u. destruct a as [|c r].
    { change ("" +:+ "/" +:+ ?x) with (String "/" x).
      change (String.prefix "/" (String "/" ?x)) with (String.prefix "" x).
      by rewrite !prefix_empty. }
    rewrite !append_cons.
    change (String.prefix "/" (String c ?x))
      with (if ascii_dec "/" c then String.prefix "" x else false).
    rewrite !prefix_empty. reflexivity. }
  assert (Hn : forall t, String.eqb (a +:+ "/" +:+ t) "" = false).
  { intros t. destruct a; reflexivity. }
  rewrite !Hn, (Hp (e +:+ "/" +:+ b) b).
  rewrite !splitSlash_app, !fold_left_app.
  assert (Hsplit : splitSlash e = [e]) by (destruct He; by subst).
  rewrite Hsplit. cbn [fold_left].
  assert (Hstep : forall rooted out, cleanStep rooted out e = out)
    by (intros; destruct He; by subst).
  by rewrite Hstep.
Qed.

(** Decimal numerals: one per integer, and without a dash when the integer
    is not negative. *)
Lemma formatInt_inj a b : formatInt a = formatInt b -> a = b.
Proof.
  unfold formatInt. intros H.
  assert (Hn : forall z, Z.to_int z <> Decimal.Pos Decimal.Nil /\
                         Z.to_int z <> Decimal.Neg Decimal.Nil).
  { intros [|p|p]; cbn; split; try discriminate;
      intros [= Hp]; by apply (DecimalPos.Unsigned.to_uint_nonnil p). }
  apply DecimalZ.to_int_inj.
  assert (Some (Z.to_int a) = Some (Z.to_int b)) as [= ->]; [|done].
  rewrite <- (NilZero.isi (Z.to_int a)), <- (NilZero.isi (Z.to_int b));
    try apply Hn.
  by rewrite H.
Qed.

Lemma string_of_uint_dashFree u : dashFree (NilEmpty.string_of_uint u) = true.
Proof. induction u; cbn; auto. Qed.

Lemma formatInt_dashFree z : (0 <= z)%Z -> dashFree (formatInt z) = true.
Proof.
  intros Hz. unfold formatInt.
  destruct z as [|p|p]; [reflexivity| |lia].
  cbn. unfold NilZero.string_of_uint.
  destruct (Pos.to_uint p); try reflexivity; apply string_of_uint_dashFree.
Qed.

Lemma dashFree_app_dash a b : dashFree (a +:+ "-" +:+ b) = false.
Proof.
  induction a as [|c a IH]; [reflexivity|].
  rewrite append_cons. cbn [dashFree]. rewrite IH. apply andb_false_r.
Qed.

(** A dash-free tail after a dash fixes where the string is cut. *)
Lemma last_dash_unique n n' d d' :
  dashFree d = true -> dashFree d' = true ->
  n +:+ "-" +:+ d = n' +:+ "-" +:+ d' -> n = n' /\ d = d'.
Proof.
  intros Hd Hd'. revert n'. induction n as [|c n IH]; intros [|c' n'] H.
  - change ("" +:+ "-" +:+ d) with (String "-" d) in H.
    change ("" +:+ "-" +:+ d') with (String "-" d') in H. by injection H.
  - change ("" +:+ "-" +:+ d) with (String "-" d) in H.
    rewrite append_cons in H. injection H as <- H.
    rewrite H, dashFree_app_dash in Hd. done.
  - change ("" +:+ "-" +:+ d') with (String "-" d') in H.
    rewrite append_cons in H. injection H as -> H.
    rewrite <- H, dashFree_app_dash in Hd'. done.
  - rewrite !append_cons in H. injection H as -> H.
    destruct (IH _ H) as [-> ->]. done.
Qed.

End StringFacts.

(* ===================================================================== *)
(** * More about one run of the handler                                   *)
(* ===================================================================== *)

Module RunFacts.
Import GoStrings filepath fs http static Behaviour simpler.
Import HeaderFacts PathFacts HandlerFacts StringFacts.

(** The validator names the file and its size: two of them are equal only
    for the same name and the same size. *)
Lemma etagOf_inj env i i' :
  (0 <= Size i)%Z -> (0 <= Size i')%Z ->
  etagOf env i = etagOf env i' -> Name i = Name i' /\ Size i = Size i'.
Proof.
  intros Hz Hz'. unfold etagOf. intros H.
  apply (inj (String.append "W/")) in H.
  apply (inj (String.append dquote)) in H.
  rewrite <- !(append_assoc (Name _)), <- !(append_assoc (_ +:+ "-")) in H.
  rewrite !(append_assoc (Name _) "-") in H.
  apply append_inj_r in H.
  apply last_dash_unique in H as [Hn Hs]; [|by apply formatInt_dashFree..].
  split; [done|]. by apply formatInt_inj.
Qed.

(** What is sent on each of the two kinds of response. *)
Lemma sent_on_error msg code h key :
  sent (http.Error msg code (newResponse h)) key =
  Some (Values (Set_ (Set_ (Del h "Content-Length") "Content-Type"
                          "text/plain; charset=utf-8")
                     "X-Content-Type-Options" "nosniff") key).
Proof.
  destruct (Error_run msg code (newResponse h) eq_refl) as (Hh & Hw & _ & _).
  unfold sent. rewrite Hw. cbn [fmap option_fmap option_map snd].
  by rewrite Hh.
Qed.

Lemma status_on_error msg code h :
  status (http.Error msg code (newResponse h)) = Some code.
Proof.
  destruct (Error_run msg code (newResponse h) eq_refl) as (_ & Hw & _ & _).
  unfold status. by rewrite Hw.
Qed.

Lemma sent_on_serve env r name mt content h key :
  sent (ServeContent env r name mt content (newResponse h)) key =
  Some (default [] (header (ServeContent env r name mt content (newResponse h))
                    !! CanonicalMIMEHeaderKey key)).
Proof.
  destruct (ServeContent_run env r name mt content (newResponse h) eq_refl)
    as (Hw & _).
  unfold sent. rewrite Hw. reflexivity.
Qed.

Lemma status_on_serve env r name mt content h :
  status (ServeContent env r name mt content (newResponse h)) = Some StatusOK.
Proof.
  destruct (ServeContent_run env r name mt content (newResponse h) eq_refl)
    as (Hw & _).
  unfold status. by rewrite Hw.
Qed.

(** [ServeContent] writes Last-Modified exactly when the time is a real
    one. *)
Lemma ServeContent_last_modified env r name mt content w :
  wroteHeader w = None ->
  header (ServeContent env r name mt content w) !! "Last-Modified" =
  if isZeroTime mt then header w !! "Last-Modified"
  else Some [formatTime env mt].
Proof.
  intros Hw. destruct w as [h wh b rf]; cbn in Hw; subst wh.
  unfold ServeContent, setLastModified.
  destruct (isZeroTime mt); cbn [negb];
    cbn [setHeader header wroteHeader body refused];
    match goal with
    | |- context [match ?c with Some _ => _ | None => _ end] => destruct c
    end; cbn [setHeader header wroteHeader body refused];
    match goal with
    | |- context [if String.eqb (Get ?h ?k) "" then _ else _] =>
        destruct (String.eqb (Get h k) "")
    end;
    cbn [setHeader header wroteHeader body refused WriteHeader Write
         bodyAllowedForStatus];
    cbn -[Set_ lookup];
    header_lookup; done.
Qed.

(** What an [embed.FS] gives: errors are does-not-exist, [Stat] succeeds,
    and the modification time is the zero time. *)
Lemma embed_errors_not_exist files name e :
  Open (embed.FS files) name = inr e -> IsNotExist e = true.
Proof.
  cbn. destruct (embed.lookup files name); [discriminate|].
  by intros [= <-].
Qed.

Lemma embed_stat_ok files name f :
  Open (embed.FS files) name = inl f -> statText (Stat f) = None.
Proof.
  cbn. destruct (embed.lookup files name) as [[d|]|]; intros [= <-]; reflexivity.
Qed.

Lemma resolve_embed_stat files dir r f :
  resolve (embed.FS files) dir r = inl f -> statText (Stat f) = None.
Proof.
  unfold resolve.
  destruct (Open (embed.FS files) (firstPath dir r)) as [g|e] eqn:H1.
  - intros [= <-]. by eapply embed_stat_ok.
  - destruct (IsNotExist e); [|discriminate]. apply embed_stat_ok.
Qed.

Lemma resolve_embed_modtime files dir r f i :
  resolve (embed.FS files) dir r = inl f -> Stat f = inl i ->
  ModTime i = zeroTime.
Proof.
  assert (Ho : forall name g, Open (embed.FS files) name = inl g ->
                 Stat g = inl i -> ModTime i = zeroTime).
  { intros name g. cbn. destruct (embed.lookup files name) as [[d|]|];
      intros [= <-]; cbn; by intros [= <-]. }
  unfold resolve.
  destruct (Open (embed.FS files) (firstPath dir r)) as [g|e] eqn:H1.
  - intros [= <-]. by eapply Ho.
  - destruct (IsNotExist e); [|discriminate]. apply Ho.
Qed.

(** The run depends on the request through its cleaned path only. *)
Lemma serve_by_cleaned_path env fsys dir h0 r r' :
  requested r = requested r' ->
  serve (fileHandler2 env fsys dir) h0 r = serve (fileHandler2 env fsys dir) h0 r'.
Proof.
  intros H. rewrite !serve_fileHandler2.
  unfold resolve, attempts, headerAtOpen, rootHeader, firstPath, lookupName.
  rewrite H. reflexivity.
Qed.

End RunFacts.

(* ===================================================================== *)
(** * Further properties: outcomes, headers, paths, the simpler handler   *)
(* ===================================================================== *)

Import simpler StringFacts RunFacts.

(** X6.  Each way in which [fileHandler2] fails has one cause.  The status
    is 204 exactly when no handle was resolved (the first [Open] failed
    with an error other than does-not-exist, or it and the [Open] of the
    default file both failed); it is 403 exactly when [Stat] failed on the
    resolved handle; the handler panics exactly when [Stat] succeeded on a
    handle that cannot seek; and nothing is sent exactly when it panics. *)
Theorem failures_have_one_cause env fsys dir h0 r :
  let H := fileHandler2 env fsys dir in
  (status (response H h0 r) = Some StatusNoContent <->
   exists e, resolve fsys dir r = inr e) /\
  (status (response H h0 r) = Some StatusForbidden <->
   exists f e, resolve fsys dir r = inl f /\ Stat f = inr e) /\
  (outcome H h0 r = Panicked nilDereference <->
   exists f i, resolve fsys dir r = inl f /\ Stat f = inl i /\
               asReadSeeker f = None) /\
  (status (response H h0 r) = None <->
   outcome H h0 r = Panicked nilDereference).
Proof.
  cbn zeta.
  pose proof (response_fileHandler2_observed env fsys dir h0 r) as Ho.
  cbn zeta in Ho. unfold outcome. rewrite serve_fileHandler2.
  destruct (resolve fsys dir r) as [f|e] eqn:Hr;
    [destruct (Stat f) as [i|e] eqn:Hs;
     [destruct (asReadSeeker f) as [c|] eqn:Hc|]|];
    injection Ho as Hb Hst; rewrite Hst; cbn [snd].
  all: repeat split; try discriminate.
  all: try (intros (? & ?); discriminate).
  all: try (intros _; repeat eexists; eassumption).
  all: intros (g & x & Hg & Hx);
    first [ discriminate Hg
          | injection Hg as <-; destruct_and?; congruence ].
Qed.

(** X7.  A request makes one lookup or two: the first [Open] and, only
    when that fails with a does-not-exist error, the [Open] of the default
    file.  After a successful [Open], and after any other error, there is
    no second lookup. *)
Theorem at_most_two_lookups env fsys dir h0 r :
  lookedUp (events (fileHandler2 env fsys dir) h0 r) =
  match Open fsys (firstPath dir r) with
  | inl _ => [firstPath dir r]
  | inr e =>
      if IsNotExist e then [firstPath dir r; fallbackPath dir]
      else [firstPath dir r]
  end.
Proof.
  unfold events. rewrite serve_fileHandler2. unfold resolve, attempts.
  destruct (Open fsys (firstPath dir r)) as [f|e];
    [|destruct (IsNotExist e);
      [destruct (Open fsys (fallbackPath dir)) as [f|e']|]];
    try (destruct (Stat f); [destruct (asReadSeeker f)|]); reflexivity.
Qed.

(** X8.  Over the embedded bundle the handler never answers 403: [Stat] on
    a handle of an [embed.FS] cannot fail. *)
Theorem bundle_never_forbidden env src h0 r :
  status (response (NewAssetHandler env src "") h0 r) <> Some StatusForbidden.
Proof.
  unfold NewAssetHandler, response. cbn [String.eqb negb].
  rewrite serve_mwSetCacheControl.
  match goal with |- context [serve (fileHandler2 ?e ?f ?d) ?h ?r] =>
    pose proof (response_fileHandler2_observed e f d h r) as Ho;
    pose proof (resolve_embed_stat (assets src) d r) as Hs
  end.
  cbn zeta in Ho. unfold response in Ho.
  destruct (resolve _ _ _) as [f|e];
    [specialize (Hs f eq_refl); destruct (Stat f) as [i|e];
     [destruct (asReadSeeker f)|discriminate]|];
    injection Ho as _ Hst; rewrite Hst; discriminate.
Qed.

(** X9.  When the bundle holds [build/index.html] as a regular file, the
    handler over the bundle never answers 204: whatever the request, a
    handle is resolved, the requested entry or else the fallback
    document. *)
Theorem bundle_with_index_never_empty env src h0 r content :
  assets src !! "build/index.html" = Some (embed.regular content) ->
  let H := NewAssetHandler env src "" in
  status (response H h0 r) <> Some StatusNoContent /\
  exists f, resolve (embed.FS (assets src)) embedPrefix r = inl f.
Proof.
  intros Hi. cbn zeta.
  assert (Hfb : Open (embed.FS (assets src)) (fallbackPath embedPrefix)
                = inl (embed.opened "build/index.html" (embed.regular content))).
  { change (fallbackPath embedPrefix) with "build/index.html".
    cbn [Open embed.FS]. unfold embed.lookup.
    change (ValidPath "build/index.html") with true.
    cbn [negb String.eqb Ascii.eqb Bool.eqb]. by rewrite Hi. }
  assert (Hr : exists f, resolve (embed.FS (assets src)) embedPrefix r = inl f).
  { unfold resolve.
    destruct (Open (embed.FS (assets src)) (firstPath embedPrefix r))
      as [f|e] eqn:H1; [by exists f|].
    rewrite (embed_errors_not_exist _ _ _ H1), Hfb. by eexists. }
  split; [|exact Hr]. destruct Hr as [f Hr].
  unfold NewAssetHandler, response. cbn [String.eqb negb].
  rewrite serve_mwSetCacheControl.
  match goal with |- context [serve (fileHandler2 ?e ?fs ?d) ?h ?r] =>
    pose proof (response_fileHandler2_observed e fs d h r) as Ho
  end.
  cbn zeta in Ho. unfold response in Ho. rewrite Hr in Ho.
  destruct (Stat f) as [i|e]; [destruct (asReadSeeker f)|];
    injection Ho as _ Hst; rewrite Hst; discriminate.
Qed.

(** The sample bundle, asked for a page it does not have. *)
Lemma bundle_with_index_never_empty_witness :
  let H := NewAssetHandler Sample.env Sample.sources "" in
  assets Sample.sources !! "build/index.html" = Some (embed.regular "A") /\
  status (response H ∅ (get "/no/such/page")) <> Some StatusNoContent /\
  exists f, resolve (embed.FS (assets Sample.sources)) embedPrefix
                    (get "/no/such/page") = inl f.
Proof.
  cbn zeta. split; [reflexivity|].
  apply (bundle_with_index_never_empty Sample.env Sample.sources ∅
           (get "/no/such/page") "A").
  reflexivity.
Defined.

(** X10.  The responses of the handler's own error paths are sent as plain
    text: a 204 and a 403 go out with Content-Type
    [text/plain; charset=utf-8] and [X-Content-Type-Options: nosniff], also
    for the root path, whose [text/html] of line 67 is overwritten. *)
Theorem error_responses_are_plain_text env fsys dir h0 r :
  let w := response (fileHandler2 env fsys dir) h0 r in
  status w = Some StatusNoContent \/ status w = Some StatusForbidden ->
  sent w "Content-Type" = Some ["text/plain; charset=utf-8"] /\
  sent w "X-Content-Type-Options" = Some ["nosniff"].
Proof.
  cbn zeta. unfold response. rewrite serve_fileHandler2.
  destruct (resolve fsys dir r) as [f|e];
    [destruct (Stat f) as [i|e]; [destruct (asReadSeeker f) as [c|]|]|];
    cbn [fst resp].
  - rewrite status_on_serve. intros [?|?]; discriminate.
  - intros [?|?]; discriminate.
  - intros _. rewrite !sent_on_error. unfold Values. header_lookup. done.
  - intros _. rewrite !sent_on_error. unfold Values. header_lookup. done.
Qed.

(** The root path over a source whose handles cannot report their
    metadata: a 403 in plain text, not [text/html]. *)
Lemma error_responses_are_plain_text_witness :
  let w := response (fileHandler2 Sample.env Sample.unreadable "") ∅ (get "/") in
  (status w = Some StatusNoContent \/ status w = Some StatusForbidden) /\
  sent w "Content-Type" = Some ["text/plain; charset=utf-8"] /\
  sent w "X-Content-Type-Options" = Some ["nosniff"].
Proof.
  cbn zeta. split; [right; reflexivity|].
  apply (error_responses_are_plain_text Sample.env Sample.unreadable "" ∅
           (get "/")).
  right. reflexivity.
Defined.

(** X11.  The handler's own error responses carry no validator: when no
    earlier middleware has put an ETag in the map, a 204 and a 403 go out
    without one (the ETag is set at line 107, after both). *)
Theorem no_etag_on_error_responses env fsys dir h0 r :
  h0 !! "Etag" = None ->
  let w := response (fileHandler2 env fsys dir) h0 r in
  status w = Some StatusNoContent \/ status w = Some StatusForbidden ->
  sent w "ETag" = Some [].
Proof.
  intros He. cbn zeta. unfold response. rewrite serve_fileHandler2.
  unfold headerAtOpen, rootHeader.
  destruct (resolve fsys dir r) as [f|e];
    [destruct (Stat f) as [i|e]; [destruct (asReadSeeker f) as [c|]|]|];
    cbn [fst resp].
  - rewrite status_on_serve. intros [?|?]; discriminate.
  - intros [?|?]; discriminate.
  - intros _. rewrite sent_on_error. unfold Values.
    destruct (String.eqb (requested r) "."), (Open fsys (firstPath dir r));
      header_lookup; by rewrite He.
  - intros _. rewrite sent_on_error. unfold Values.
    destruct (String.eqb (requested r) "."); header_lookup; by rewrite He.
Qed.

(** A source whose handles cannot report their metadata: a 403 without
    validator. *)
Lemma no_etag_on_error_responses_witness :
  let w := response (fileHandler2 Sample.env Sample.unreadable "") ∅
                    (get "/app.js") in
  ((∅ : Header) !! "Etag" = None /\
   (status w = Some StatusNoContent \/ status w = Some StatusForbidden)) /\
  sent w "ETag" = Some [].
Proof.
  cbn zeta. split; [split; [reflexivity|right; reflexivity]|].
  apply (no_etag_on_error_responses Sample.env Sample.unreadable "" ∅
           (get "/app.js")); [reflexivity|].
  right. reflexivity.
Defined.

(** X12.  Over the embedded bundle no Last-Modified header is sent: the
    modification time of an embedded file is the zero time (the comment of
    lines 109-112), and no other path sets the header. *)
Theorem bundle_sends_no_last_modified env src h0 r :
  h0 !! "Last-Modified" = None ->
  let w := response (NewAssetHandler env src "") h0 r in
  sent w "Last-Modified" = (fun _ => []) <$> status w.
Proof.
  intros Hl. cbn zeta. unfold NewAssetHandler, response. cbn [String.eqb negb].
  rewrite serve_mwSetCacheControl, serve_fileHandler2.
  unfold headerAtOpen, rootHeader.
  pose proof (resolve_embed_modtime (assets src) embedPrefix r) as Hm.
  destruct (resolve _ embedPrefix r) as [f|e];
    [specialize (Hm f); destruct (Stat f) as [i|e];
     [specialize (Hm i eq_refl eq_refl); destruct (asReadSeeker f) as [c|]|]|];
    cbn [fst resp].
  - rewrite sent_on_serve, status_on_serve, Hm. canonical_keys.
    rewrite ServeContent_last_modified by reflexivity.
    change (isZeroTime zeroTime) with true. cbn [newResponse header].
    destruct (String.eqb (requested r) "."),
      (Open (embed.FS (assets src)) (firstPath embedPrefix r));
      header_lookup; by rewrite Hl.
  - reflexivity.
  - rewrite sent_on_error, status_on_error. unfold Values.
    destruct (String.eqb (requested r) "."),
      (Open (embed.FS (assets src)) (firstPath embedPrefix r));
      header_lookup; by rewrite Hl.
  - rewrite sent_on_error, status_on_error. unfold Values.
    destruct (String.eqb (requested r) "."); header_lookup; by rewrite Hl.
Qed.

(** The script of the sample bundle: a 200 without Last-Modified. *)
Lemma bundle_sends_no_last_modified_witness :
  let w := response (NewAssetHandler Sample.env Sample.sources "") ∅
                    (get "/app.js") in
  (∅ : Header) !! "Last-Modified" = None /\
  sent w "Last-Modified" = (fun _ => []) <$> status w /\
  status w = Some StatusOK.
Proof.
  cbn zeta. split; [reflexivity|]. split; [|reflexivity].
  apply (bundle_sends_no_last_modified Sample.env Sample.sources ∅
           (get "/app.js")).
  reflexivity.
Defined.

(** X13.  A served file whose modification time is a real one (neither
    the zero time nor the Unix epoch) goes out with that time as
    Last-Modified. *)
Theorem last_modified_of_dated_file env fsys dir h0 r f i content :
  resolve fsys dir r = inl f -> Stat f = inl i ->
  asReadSeeker f = Some content -> isZeroTime (ModTime i) = false ->
  sent (response (fileHandler2 env fsys dir) h0 r) "Last-Modified"
  = Some [formatTime env (ModTime i)].
Proof.
  intros Hr Hs Hc Hz. unfold response.
  rewrite serve_fileHandler2, Hr, Hs, Hc. cbn [fst resp].
  rewrite sent_on_serve. canonical_keys.
  rewrite ServeContent_last_modified by reflexivity. by rewrite Hz.
Qed.

(** The sample directory with files dated half a second after the Unix
    epoch: not the epoch, so the time is sent. *)
Lemma last_modified_of_dated_file_witness :
  let fsys := os.DirFS (os.diskOpen Sample.disk Sample.earlyTime) "/ui" in
  let i := {| Name := "app.js"; Size := 2; ModTime := Sample.earlyTime;
              IsDir := false |} in
  let f := {| Stat := inl i; asReadSeeker := Some "BB" |} in
  (resolve fsys "" (get "/app.js") = inl f /\ Stat f = inl i /\
   asReadSeeker f = Some "BB" /\ isZeroTime (ModTime i) = false) /\
  sent (response (fileHandler2 Sample.env fsys "") ∅ (get "/app.js"))
       "Last-Modified" = Some ["0"].
Proof.
  cbn zeta. split; [repeat split|].
  apply (last_modified_of_dated_file Sample.env
           (os.DirFS (os.diskOpen Sample.disk Sample.earlyTime) "/ui") "" ∅
           (get "/app.js")
           {| Stat := inl {| Name := "app.js"; Size := 2;
                             ModTime := Sample.earlyTime; IsDir := false |};
              asReadSeeker := Some "BB" |}
           {| Name := "app.js"; Size := 2; ModTime := Sample.earlyTime;
              IsDir := false |}
           "BB");
    reflexivity.
Defined.

(** X14.  The validators of two served files are equal exactly when the
    files have the same name and the same size (sizes are not negative):
    files that differ in name or size never share an ETag under one
    build. *)
Theorem etag_tells_files_apart
    env fsys dir h0 r f i content fsys' dir' h0' r' f' i' content' :
  resolve fsys dir r = inl f -> Stat f = inl i ->
  asReadSeeker f = Some content ->
  resolve fsys' dir' r' = inl f' -> Stat f' = inl i' ->
  asReadSeeker f' = Some content' ->
  0 <= Size i -> 0 <= Size i' ->
  sent (response (fileHandler2 env fsys dir) h0 r) "ETag" =
  sent (response (fileHandler2 env fsys' dir') h0' r') "ETag"
  <-> Name i = Name i' /\ Size i = Size i'.
Proof.
  intros Hr Hs Hc Hr' Hs' Hc' Hz Hz'.
  rewrite (etag_sent _ _ _ _ _ _ _ _ Hr Hs Hc).
  rewrite (etag_sent _ _ _ _ _ _ _ _ Hr' Hs' Hc').
  split.
  - intros H. apply (etagOf_inj env); [done..|].
    exact (f_equal (fun o => match o with Some [x] => x | _ => "" end) H).
  - intros [Hn Hsz]. unfold etagOf. by rewrite Hn, Hsz.
Qed.

(** The script and the document of the sample bundle. *)
Lemma etag_tells_files_apart_witness :
  let fsys := embed.FS Sample.bundle in
  let f := embed.opened "build/app.js" (embed.regular "BB") in
  let i := {| Name := "app.js"; Size := 2; ModTime := zeroTime;
              IsDir := false |} in
  let f' := embed.opened "build/index.html" (embed.regular "A") in
  let i' := {| Name := "index.html"; Size := 1; ModTime := zeroTime;
               IsDir := false |} in
  (resolve fsys embedPrefix (get "/app.js") = inl f /\ Stat f = inl i /\
   asReadSeeker f = Some "BB" /\
   resolve fsys embedPrefix (get "/") = inl f' /\ Stat f' = inl i' /\
   asReadSeeker f' = Some "A" /\ 0 <= Size i /\ 0 <= Size i') /\
  (sent (response (fileHandler2 Sample.env fsys embedPrefix) ∅ (get "/app.js"))
        "ETag" =
   sent (response (fileHandler2 Sample.env fsys embedPrefix) ∅ (get "/"))
        "ETag"
   <-> Name i = Name i' /\ Size i = Size i').
Proof.
  cbn zeta.
  assert (Hz : 0 <= 2) by lia. assert (Hz' : 0 <= 1) by lia.
  split; [repeat split; assumption|].
  apply (etag_tells_files_apart
           Sample.env (embed.FS Sample.bundle) embedPrefix ∅ (get "/app.js")
           (embed.opened "build/app.js" (embed.regular "BB"))
           {| Name := "app.js"; Size := 2; ModTime := zeroTime; IsDir := false |}
           "BB"
           (embed.FS Sample.bundle) embedPrefix ∅ (get "/")
           (embed.opened "build/index.html" (embed.regular "A"))
           {| Name := "index.html"; Size := 1; ModTime := zeroTime;
              IsDir := false |}
           "A");
    try reflexivity; assumption.
Defined.

(** X15.  A trailing separator does not change what the handler does: for
    a path with something after its leading separator, the run for the
    path with a [/] added at its end is the run for the path (response,
    lookups and outcome). *)
Theorem trailing_slash_ignored env fsys dir h0 p :
  TrimPrefix p "/" <> "" ->
  serve (fileHandler2 env fsys dir) h0 (get (p +:+ "/")) =
  serve (fileHandler2 env fsys dir) h0 (get p).
Proof.
  intros Hp. apply serve_by_cleaned_path. unfold requested, get; cbn [URL_Path].
  destruct p as [|c q]; [done|].
  rewrite append_cons, !TrimPrefix_cons in *.
  destruct (Ascii.eqb c "/").
  - by apply Clean_trailing_slash.
  - rewrite <- append_cons. by apply Clean_trailing_slash.
Qed.

Lemma trailing_slash_ignored_witness :
  let H := fileHandler2 Sample.env (embed.FS Sample.bundle) embedPrefix in
  TrimPrefix "/app.js" "/" <> "" /\
  serve H ∅ (get ("/app.js" +:+ "/")) = serve H ∅ (get "/app.js") /\
  body (response H ∅ (get "/app.js/")) = "BB".
Proof.
  cbn zeta.
  assert (Hp : TrimPrefix "/app.js" "/" <> "") by (vm_compute; discriminate).
  split; [exact Hp|]. split; [|reflexivity].
  exact (trailing_slash_ignored Sample.env (embed.FS Sample.bundle)
           embedPrefix ∅ "/app.js" Hp).
Defined.

(** X16.  Doubled separators and dot elements inside a request path do not
    change what the handler does: the runs for [/a//b] and for [/a/./b] are
    the run for [/a/b], whatever [a] and [b] are. *)
Theorem empty_and_dot_segments_ignored env fsys dir h0 a b :
  let H := fileHandler2 env fsys dir in
  serve H h0 (get ("/" +:+ a +:+ "/" +:+ "" +:+ "/" +:+ b)) =
    serve H h0 (get ("/" +:+ a +:+ "/" +:+ b)) /\
  serve H h0 (get ("/" +:+ a +:+ "/" +:+ "." +:+ "/" +:+ b)) =
    serve H h0 (get ("/" +:+ a +:+ "/" +:+ b)).
Proof.
  cbn zeta. split; apply serve_by_cleaned_path;
    unfold requested, get; cbn [URL_Path];
    rewrite !TrimPrefix_slash; apply Clean_inner_element; auto.
Qed.

(** X17.  The file system that [fileHandler] gives to the file server
    hides missing files: when the default file opens, no name fails with a
    does-not-exist error; a name either opens or fails with another
    error. *)
Theorem fallback_hides_missing_files fileOpener dir f0 :
  Open fileOpener (Join [dir; defaultFile]) = inl f0 ->
  forall name e,
    Open (fileHandler_fsys fileOpener dir) name = inr e ->
    IsNotExist e = false.
Proof.
  intros H0 name e. cbn [Open fileHandler_fsys fsFunc].
  destruct (Open fileOpener (Join [dir; name])) as [f|err]; [discriminate|].
  destruct (IsNotExist err) eqn:Hn.
  - rewrite H0. discriminate.
  - by intros [= <-].
Qed.

Lemma fallback_hides_missing_files_witness :
  let f0 := embed.opened "build/index.html" (embed.regular "A") in
  Open (embed.FS Sample.bundle) (Join [embedPrefix; defaultFile]) = inl f0 /\
  (forall name e,
      Open (fileHandler_fsys (embed.FS Sample.bundle) embedPrefix) name = inr e ->
      IsNotExist e = false) /\
  Open (fileHandler_fsys (embed.FS Sample.bundle) embedPrefix) "no/such/page"
    = inl f0.
Proof.
  cbn zeta. split; [reflexivity|]. split; [|reflexivity].
  apply (fallback_hides_missing_files (embed.FS Sample.bundle) embedPrefix
           (embed.opened "build/index.html" (embed.regular "A"))).
  reflexivity.
Defined.

(* ===================================================================== *)
(** * [Clean] gives a path that is clean                                  *)
(* ===================================================================== *)

Module CleanFacts.
Import GoStrings filepath fs http static Behaviour simpler.
Import PathFacts StringFacts.

Lemma splitSlash_slashFree s : Forall (fun e => slashFree e = true) (splitSlash s).
Proof.
  induction s as [|c r IH]; [by repeat constructor|].
  cbn [splitSlash]. destruct (Ascii.eqb c "/") eqn:Hc.
  - by constructor.
  - pose proof (splitSlash_nonempty r).
    destruct (splitSlash r) as [|e es]; [done|].
    inversion IH; subst. constructor; [|done]. cbn. by rewrite Hc.
Qed.

Lemma splitSlash_single e : slashFree e = true -> splitSlash e = [e].
Proof.
  induction e as [|c r IH]; [done|]. cbn. intros [Hc Hr]%andb_true_iff.
  apply negb_true_iff in Hc. rewrite Hc, IH; done.
Qed.

Lemma splitSlash_joinSlash l :
  l <> [] -> Forall (fun e => slashFree e = true) l ->
  splitSlash (joinSlash l) = l.
Proof.
  induction l as [|e l IH]; [done|]. intros _ Hl. inversion Hl; subst.
  destruct l as [|e' l'].
  - by apply splitSlash_single.
  - rewrite joinSlash_cons by done. rewrite splitSlash_app.
    rewrite splitSlash_single by done. rewrite IH by done. reflexivity.
Qed.

Lemma validElem_cases e :
  validElem e = true \/ e = "" \/ e = "." \/ e = "..".
Proof.
  unfold validElem.
  destruct (String.eqb_spec e ""); [auto|].
  destruct (String.eqb_spec e "."); [auto|].
  destruct (String.eqb_spec e ".."); auto.
Qed.

Lemma cleanStep_ordinary rooted out e :
  validElem e = true -> cleanStep rooted out e = e :: out.
Proof.
  unfold validElem, cleanStep. intros H%negb_true_iff.
  apply orb_false_iff in H as [H H3]. apply orb_false_iff in H as [H1 H2].
  by rewrite H1, H2, H3.
Qed.

Lemma cleanStep_buffer rooted out e :
  slashFree e = true -> buffer rooted out -> buffer rooted (cleanStep rooted out e).
Proof.
  intros He (R & D & -> & HR & HD & Hroot).
  destruct (validElem_cases e) as [Hv|[E|[E|E]]]; try subst e.
  - rewrite cleanStep_ordinary by done.
    exists (e :: R), D. repeat split; auto. constructor; [by split|done].
  - by exists R, D.
  - by exists R, D.
  - destruct R as [|r R].
    + destruct D as [|d D]; cbn.
      * destruct rooted; [by exists [], []|].
        exists [], [".."]. repeat split; auto. done.
      * inversion HD; subst. cbn.
        destruct rooted; [by specialize (Hroot eq_refl)|].
        exists [], (".." :: ".." :: D). repeat split; auto. done.
    + inversion HR as [|? ? [Hv _] HR']; subst.
      cbn. unfold validElem in Hv. apply negb_true_iff in Hv.
      apply orb_false_iff in Hv as [_ ->].
      by exists R, D.
Qed.

Lemma fold_cleanStep_buffer rooted l out :
  Forall (fun e => slashFree e = true) l -> buffer rooted out ->
  buffer rooted (fold_left (cleanStep rooted) l out).
Proof.
  revert out. induction l as [|e l IH]; intros out Hl Hb; [done|].
  inversion Hl; subst. cbn. apply IH; [done|]. by apply cleanStep_buffer.
Qed.

Lemma fold_cleanStep_dotdots D acc :
  Forall (eq "..") D -> Forall (eq "..") acc ->
  fold_left (cleanStep false) D acc = rev D ++ acc.
Proof.
  revert acc. induction D as [|d D IH]; intros acc HD Hacc; [done|].
  inversion HD; subst. cbn [fold_left].
  assert (Hs : cleanStep false acc ".." = ".." :: acc).
  { destruct acc as [|a acc]; [done|]. inversion Hacc; subst. done. }
  rewrite Hs, IH by (done || by constructor).
  cbn [rev]. by rewrite <- app_assoc.
Qed.

Lemma ordinary_forallb R :
  Forall ordinary R -> forallb validElem R = true.
Proof. induction 1 as [|e R [He _] _ IH]; [done|]. cbn. by rewrite He, IH. Qed.

Lemma joinSlash_nonempty l :
  l <> [] -> Forall (fun e => e <> "") l -> joinSlash l <> "".
Proof.
  destruct l as [|e l]; [done|]. intros _ Hl. inversion Hl; subst.
  destruct l as [|e' l']; [done|]. rewrite joinSlash_cons by done.
  destruct e; done.
Qed.

Lemma joinSlash_first_char l c r :
  joinSlash l = String c r ->
  exists e es, l = e :: es /\ (e = "" /\ c = "/"%char \/ exists e', e = String c e').
Proof.
  destruct l as [|e es]; [done|]. intros H. exists e, es. split; [done|].
  destruct es as [|e' es'].
  - cbn in H. subst. eauto.
  - rewrite joinSlash_cons in H by done.
    destruct e as [|x e0].
    + change ("" +:+ "/" +:+ joinSlash (e' :: es'))
        with (String "/" (joinSlash (e' :: es'))) in H.
      injection H as <- _. auto.
    + rewrite append_cons in H. injection H as <- _. eauto.
Qed.

(** Cleaning a cleaned path changes nothing. *)
Lemma Clean_idempotent p : Clean (Clean p) = Clean p.
Proof.
  enough (forall q, q = Clean p -> Clean q = q) as E by (by apply E).
  intros q Hq. unfold Clean in Hq.
  destruct (String.eqb p "") eqn:Hp; [by subst q|].
  set (rooted := String.prefix "/" p) in *.
  pose proof (fold_cleanStep_buffer rooted (splitSlash p) []
                (splitSlash_slashFree p)) as Hb.
  destruct Hb as (R & D & Hout & HR & HD & Hroot).
  { exists [], []. repeat split; auto. }
  rewrite Hout, rev_app_distr in Hq.
  set (l := rev D ++ rev R) in *.
  assert (HlR : Forall ordinary (rev R)) by (by apply Forall_rev).
  assert (HlD : Forall (eq "..") (rev D)) by (by apply Forall_rev).
  assert (Hfree : Forall (fun e => slashFree e = true) l).
  { apply Forall_app. split.
    - eapply Forall_impl; [exact HlD|]. by intros ? <-.
    - eapply Forall_impl; [exact HlR|]. by intros ? [_ ?]. }
  assert (Hne : Forall (fun e => e <> "") l).
  { apply Forall_app. split.
    - eapply Forall_impl; [exact HlD|]. by intros ? <-.
    - eapply Forall_impl; [exact HlR|]. intros e [Hv _] E. by subst e. }
  assert (Hfold : fold_left (cleanStep false) l [] = rev l).
  { unfold l. rewrite fold_left_app.
    rewrite (fold_cleanStep_dotdots _ [] HlD ltac:(constructor)).
    rewrite cleanStep_valid by (by apply ordinary_forallb).
    by rewrite app_nil_r, rev_app_distr. }
  destruct rooted eqn:Hrooted.
  - (* rooted: the buffer holds ordinary elements only *)
    specialize (Hroot eq_refl). subst D. subst q.
    assert (Hl : Forall ordinary l) by done.
    unfold Clean.
    change (String.eqb ("/" +:+ joinSlash l) "") with false.
    change (String.prefix "/" ("/" +:+ joinSlash l))
      with (String.prefix "" (joinSlash l)).
    rewrite prefix_empty.
    change ("/" +:+ joinSlash l) with ("" +:+ "/" +:+ joinSlash l) at 1.
    rewrite splitSlash_app. cbn [splitSlash app fold_left].
    change (cleanStep true [] "") with (@nil string).
    destruct (decide (l = [])) as [->|Hnil]; [reflexivity|].
    rewrite splitSlash_joinSlash by done.
    rewrite cleanStep_valid by (by apply ordinary_forallb).
    by rewrite app_nil_r, rev_involutive.
  - (* relative *)
    destruct (String.eqb (joinSlash l) "") eqn:Hs; [by subst q|].
    subst q. apply String.eqb_neq in Hs.
    assert (Hnil : l <> []) by (intros E; by rewrite E in Hs).
    unfold Clean. rewrite (eqb_nonempty _ Hs).
    assert (Hpre : String.prefix "/" (joinSlash l) = false).
    { destruct (joinSlash l) as [|c r] eqn:Hj; [done|].
      change (String.prefix "/" (String c r))
        with (if ascii_dec "/" c then String.prefix "" r else false).
      destruct (ascii_dec "/" c) as [<-|]; [|done]. exfalso.
      destruct (joinSlash_first_char _ _ _ Hj) as (e & es & El & Hc).
      rewrite El in Hne, Hfree.
      inversion Hne; subst. inversion Hfree; subst.
      destruct Hc as [[E _]|[e' E]]; subst e; [done|]. cbn in *. done. }
    rewrite Hpre, splitSlash_joinSlash by done.
    rewrite Hfold, rev_involutive.
    by rewrite (eqb_nonempty _ Hs).
Qed.

Lemma Clean_nonempty p : Clean p <> "".
Proof.
  unfold Clean. destruct (String.eqb p ""); [done|].
  destruct (String.prefix "/" p); [done|].
  destruct (String.eqb_spec (joinSlash
    (rev (fold_left (cleanStep false) (splitSlash p) []))) ""); done.
Qed.

Lemma firstPath_directory r :
  firstPath "" r =
  if String.eqb (requested r) "." then defaultFile else requested r.
Proof.
  unfold firstPath, lookupName.
  destruct (String.eqb (requested r) ".") eqn:Hd; [reflexivity|].
  cbn [Join String.eqb]. unfold requested.
  rewrite (eqb_nonempty _ (Clean_nonempty _)).
  cbn [joinSlash]. apply Clean_idempotent.
Qed.

End CleanFacts.

(* ===================================================================== *)
(** * Further properties: names that are not valid                        *)
(* ===================================================================== *)

Import CleanFacts.

(** X19.  In external-directory mode the handler looks up the cleaned
    request path itself ([index.html] for the root): joining it with the
    empty prefix changes nothing.  A second lookup, if there is one, is of
    [index.html]. *)
Theorem directory_looks_up_cleaned_path env src assetsPath h0 r :
  assetsPath <> "" ->
  let H := NewAssetHandler env src assetsPath in
  let name := if String.eqb (requested r) "." then defaultFile else requested r in
  lookedUp (events H h0 r) = [name] \/
  lookedUp (events H h0 r) = [name; defaultFile].
Proof.
  intros Hp. cbn zeta. apply String.eqb_neq in Hp.
  unfold NewAssetHandler, events. rewrite Hp. cbn [negb].
  rewrite serve_mwSetCacheControl, serve_fileHandler2.
  unfold resolve, attempts. rewrite firstPath_directory.
  change (fallbackPath "") with defaultFile.
  destruct (Open (os.DirFS (osOpen src) assetsPath)
                 (if String.eqb (requested r) "." then defaultFile
                  else requested r)) as [f|e];
    [|destruct (IsNotExist e);
      [destruct (Open (os.DirFS (osOpen src) assetsPath) defaultFile)
         as [f|e']|]];
    try (destruct (Stat f); [destruct (asReadSeeker f)|]);
    cbn [fst trace]; auto.
Qed.

Lemma directory_looks_up_cleaned_path_witness :
  let H := NewAssetHandler Sample.env Sample.sources "/ui" in
  let r := get "/static/../x//y/" in
  "/ui" <> "" /\
  (lookedUp (events H ∅ r) = ["x/y"] \/
   lookedUp (events H ∅ r) = ["x/y"; defaultFile]) /\
  lookedUp (events H ∅ r) = ["x/y"; "index.html"].
Proof.
  cbn zeta. assert (Hp : "/ui" <> "") by discriminate.
  split; [exact Hp|]. split; [|reflexivity].
  exact (directory_looks_up_cleaned_path Sample.env Sample.sources "/ui" ∅
           (get "/static/../x//y/") Hp).
Defined.

(** X20.  In external-directory mode a request whose cleaned path is not
    a valid name (it is rooted, or [..] elements are left in it) is refused
    by [os.DirFS] before the host is asked: the response is an empty 204
    after that one lookup, whatever the host's file system holds, the
    fallback document included. *)
Theorem directory_refuses_invalid_names env src assetsPath h0 r :
  assetsPath <> "" -> ValidPath (requested r) = false ->
  let H := NewAssetHandler env src assetsPath in
  status (response H h0 r) = Some StatusNoContent /\
  body (response H h0 r) = "" /\
  events H h0 r =
    [EvOpen (requested r) (inr (PathError "open" (requested r) ErrInvalid))] /\
  forall hostOpen,
    serve (NewAssetHandler env {| assets := assets src; osOpen := hostOpen |}
                           assetsPath) h0 r
    = serve H h0 r.
Proof.
  intros Hp Hv. cbn zeta. apply String.eqb_neq in Hp.
  assert (Hd : String.eqb (requested r) "." = false).
  { destruct (String.eqb_spec (requested r) ".") as [E|]; [|done].
    rewrite E in Hv. discriminate. }
  assert (Hopen : forall hostOpen,
            Open (os.DirFS hostOpen assetsPath) (firstPath "" r)
            = inr (PathError "open" (requested r) ErrInvalid)).
  { intros hostOpen. rewrite firstPath_directory, Hd. cbn [Open os.DirFS].
    by rewrite Hv. }
  assert (Hrun : forall hostOpen,
            serve (fileHandler2 env (os.DirFS hostOpen assetsPath) "")
                  (Add h0 "Cache-Control" "public, max-age=3600") r
            = ({| resp := http.Error
                            (fs.Error (PathError "open" (requested r) ErrInvalid))
                            StatusNoContent
                            (newResponse
                               (rootHeader (Add h0 "Cache-Control"
                                                "public, max-age=3600") r));
                  trace := [EvOpen (firstPath "" r)
                              (inr (PathError "open" (requested r) ErrInvalid))] |},
               Returned)).
  { intros hostOpen. rewrite serve_fileHandler2. unfold resolve, attempts.
    rewrite Hopen. reflexivity. }
  unfold NewAssetHandler, response, events. rewrite Hp. cbn [negb osOpen].
  rewrite serve_mwSetCacheControl, Hrun. cbn [fst resp trace].
  rewrite status_on_error.
  destruct (Error_run (fs.Error (PathError "open" (requested r) ErrInvalid))
              StatusNoContent
              (newResponse (rootHeader (Add h0 "Cache-Control"
                                            "public, max-age=3600") r))
              eq_refl) as (_ & _ & Hb & _).
  rewrite Hb. rewrite firstPath_directory, Hd.
  repeat split; try done.
  intros hostOpen.
  by rewrite serve_mwSetCacheControl, Hrun, firstPath_directory, Hd.
Qed.

Lemma directory_refuses_invalid_names_witness :
  let H := NewAssetHandler Sample.env Sample.sources "/ui" in
  let r := get "//etc/passwd" in
  ("/ui" <> "" /\ ValidPath (requested r) = false) /\
  requested r = "/etc/passwd" /\
  status (response H ∅ r) = Some StatusNoContent /\
  body (response H ∅ r) = "" /\
  events H ∅ r =
    [EvOpen (requested r) (inr (PathError "open" (requested r) ErrInvalid))] /\
  forall hostOpen,
    serve (NewAssetHandler Sample.env
             {| assets := assets Sample.sources; osOpen := hostOpen |} "/ui") ∅ r
    = serve H ∅ r.
Proof.
  cbn zeta. assert (Hp : "/ui" <> "") by discriminate.
  assert (Hv : ValidPath (requested (get "//etc/passwd")) = false)
    by reflexivity.
  split; [by split|]. split; [reflexivity|].
  exact (directory_refuses_invalid_names Sample.env Sample.sources "/ui" ∅
           (get "//etc/passwd") Hp Hv).
Defined.

(** X21.  In embedded-bundle mode a request whose joined name
    [Join(build, name)] is not a valid name is answered like a missing
    file: [embed.FS] reports it as not existing, the fallback lookup
    follows, and with [build/index.html] in the bundle the response is 200
    with that document and Content-Type [text/html]. *)
Theorem bundle_answers_invalid_names_with_shell env src h0 r content :
  ValidPath (firstPath embedPrefix r) = false ->
  assets src !! "build/index.html" = Some (embed.regular content) ->
  let H := NewAssetHandler env src "" in
  status (response H h0 r) = Some StatusOK /\
  body (response H h0 r) = content /\
  sent (response H h0 r) "Content-Type" = Some ["text/html"] /\
  lookedUp (events H h0 r) = [firstPath embedPrefix r; "build/index.html"].
Proof.
  intros Hv Hi. cbn zeta.
  unfold NewAssetHandler, response, events. cbn [String.eqb negb].
  rewrite serve_mwSetCacheControl, serve_fileHandler2.
  unfold resolve, attempts, headerAtOpen.
  assert (H1 : Open (embed.FS (assets src)) (firstPath embedPrefix r)
               = inr (PathError "open" (firstPath embedPrefix r) ErrNotExist)).
  { cbn [Open embed.FS]. unfold embed.lookup. by rewrite Hv. }
  assert (H2 : Open (embed.FS (assets src)) (fallbackPath embedPrefix)
               = inl (embed.opened "build/index.html" (embed.regular content))).
  { change (fallbackPath embedPrefix) with "build/index.html".
    cbn [Open embed.FS]. unfold embed.lookup.
    change (ValidPath "build/index.html") with true.
    cbn [negb String.eqb Ascii.eqb Bool.eqb]. by rewrite Hi. }
  rewrite H1. cbn [IsNotExist underlyingError]. rewrite H2.
  cbn [embed.opened Stat asReadSeeker fst resp trace ModTime].
  match goal with |- context [ServeContent ?e ?r ?n ?m ?c ?w] =>
    destruct (ServeContent_run e r n m c w eq_refl) as (Hw & Hb & _ & Hct & _)
  end.
  unfold status, sent. rewrite Hw, Hb.
  cbn [fmap option_fmap option_map fst snd].
  repeat split; try done.
  unfold Values. canonical_keys. erewrite Hct; [done|].
  cbn [newResponse header]. header_lookup. done.
Qed.

Lemma bundle_answers_invalid_names_with_shell_witness :
  let H := NewAssetHandler Sample.env Sample.sources "" in
  let r := get "/../../secret" in
  (ValidPath (firstPath embedPrefix r) = false /\
   assets Sample.sources !! "build/index.html" = Some (embed.regular "A")) /\
  status (response H ∅ r) = Some StatusOK /\
  body (response H ∅ r) = "A" /\
  sent (response H ∅ r) "Content-Type" = Some ["text/html"] /\
  lookedUp (events H ∅ r) = [firstPath embedPrefix r; "build/index.html"].
Proof.
  cbn zeta. split; [by split|].
  apply (bundle_answers_invalid_names_with_shell Sample.env Sample.sources ∅
           (get "/../../secret") "A"); reflexivity.
Defined.
